(** * Weather pipeline: ingestion, aggregation and duplicate removal

    A shallow embedding of [src/load_data.py] and
    [src/calculate_statistics.py].

    - Python [str] values are [string]s whose characters are the code points
      below 256; the interpreter's cap on the digit count accepted by
      [int()] is left out.
    - Exceptions are values of [Exn]; a computation that may raise returns
      [Exn + A].
    - A database table is the list of its rows in storage order.  SQL
      conditions are three-valued ([tri]); [GROUP BY] puts NULLs in one
      group while [=] on a NULL is unknown.
    - The store's arithmetic on [max_temp / 10.0] and friends is carried out
      over exact rationals.  The store itself computes in floating point,
      in an order and with a [ROUND] of its own: what depends on the last
      digit of an aggregate is outside this embedding. *)

From Stdlib Require Import ZArith QArith Qround List String Ascii Bool Arith Lia.
From Stdlib Require Import Lqa.
Import ListNotations.

Local Open Scope Z_scope.
Local Open Scope string_scope.
Local Open Scope list_scope.

(** ** Python exceptions and the error monad *)

Inductive Exn : Type :=
| IndexError
| ValueError.

Definition result (A : Type) : Type := (Exn + A)%type.

Definition ret {A : Type} (a : A) : result A := inr a.
Definition raise {A : Type} (e : Exn) : result A := inl e.

Definition bind {A B : Type} (m : result A) (k : A -> result B) : result B :=
  match m with
  | inl e => inl e
  | inr a => k a
  end.

Notation "x <- m ;; k" := (bind m (fun x => k))
  (at level 61, m at next level, right associativity).

(** How a run of a script ends: normally, or with an exception that
    propagates to the top; either way the store is left in some state. *)
Inductive Outcome (S : Type) : Type :=
| Finished (s : S)
| Raised (e : Exn) (s : S).
Arguments Finished {S} s.
Arguments Raised {S} e s.

Definition final_state {S : Type} (o : Outcome S) : S :=
  match o with
  | Finished s => s
  | Raised _ s => s
  end.

(** ** The string operations of the Python runtime that the code calls *)

Module PyStr.

Definition TAB : ascii := "009"%char.

Definition code (c : ascii) : nat := nat_of_ascii c.

(** [str.isspace] on one character: what [str.strip()] removes. *)
Definition is_space (c : ascii) : bool :=
  let n := code c in
  ((9 <=? n) && (n <=? 13) || (28 <=? n) && (n <=? 32)
   || (n =? 133) || (n =? 160))%nat.

(** The white space [int()] skips around a literal: the file, group,
    record and unit separators (28 to 31) are not part of it. *)
Definition is_int_space (c : ascii) : bool :=
  let n := code c in
  ((9 <=? n) && (n <=? 13) || (n =? 32) || (n =? 133) || (n =? 160))%nat.

Fixpoint lstrip_with (sp : ascii -> bool) (s : string) : string :=
  match s with
  | EmptyString => EmptyString
  | String c s' => if sp c then lstrip_with sp s' else s
  end.

Fixpoint rstrip_with (sp : ascii -> bool) (s : string) : string :=
  match s with
  | EmptyString => EmptyString
  | String c s' =>
      match rstrip_with sp s' with
      | EmptyString => if sp c then EmptyString else String c EmptyString
      | t => String c t
      end
  end.

(** [s.strip()] *)
Definition strip (s : string) : string :=
  rstrip_with is_space (lstrip_with is_space s).

(** [s.split(sep)] for a one-character separator. *)
Fixpoint split (sep : ascii) (s : string) : list string :=
  match s with
  | EmptyString => [EmptyString]
  | String c s' =>
      if Ascii.eqb c sep then EmptyString :: split sep s'
      else match split sep s' with
           | f :: fs => String c f :: fs
           | [] => [String c EmptyString]
           end
  end.

Definition digit_value (c : ascii) : option Z :=
  let n := code c in
  if ((48 <=? n) && (n <=? 57))%nat then Some (Z.of_nat (n - 48)) else None.

(** Decimal digits with single underscores between them. [after_digit]
    tells whether the character just read was a digit. *)
Fixpoint digits (acc : Z) (after_digit : bool) (s : string) : option Z :=
  match s with
  | EmptyString => if after_digit then Some acc else None
  | String c s' =>
      match digit_value c with
      | Some d => digits (acc * 10 + d) true s'
      | None =>
          if Ascii.eqb c "_"%char && after_digit then digits acc false s'
          else None
      end
  end.

(** [int(s)]: [None] stands for the [ValueError]. *)
Definition int (s : string) : option Z :=
  match rstrip_with is_int_space (lstrip_with is_int_space s) with
  | String "-" t => option_map Z.opp (digits 0 false t)
  | String "+" t => digits 0 false t
  | t => digits 0 false t
  end.

(** [s.endswith(suffix)] *)
Definition endswith (s suffix : string) : bool :=
  let n := String.length s in
  let m := String.length suffix in
  ((m <=? n)%nat && String.eqb (substring (n - m) m s) suffix).

(** Position of the last ["."] of [s], when there is one. *)
Fixpoint rfind_dot (s : string) : option nat :=
  match s with
  | EmptyString => None
  | String c s' =>
      match rfind_dot s' with
      | Some i => Some (S i)
      | None => if Ascii.eqb c "."%char then Some 0%nat else None
      end
  end.

Fixpoint all_dots (s : string) : bool :=
  match s with
  | EmptyString => true
  | String c s' => Ascii.eqb c "."%char && all_dots s'
  end.

(** [os.path.splitext(name)[0]] for a directory entry (no separator in
    it): the extension starts at the last dot, unless only dots come
    before it. *)
Definition splitext_root (name : string) : string :=
  match rfind_dot name with
  | None => name
  | Some i =>
      let root := substring 0 i name in
      if all_dots root then name else root
  end.

(** SQL [substr(s, 1, n)]. *)
Definition prefix (n : nat) (s : string) : string := substring 0 n s.

End PyStr.

Definition tab_join (fields : list string) : string :=
  String.concat (String PyStr.TAB EmptyString) fields.

(** ** The operations of the store that the queries use *)

Module Sql.

(** A condition is true, false or unknown ([None]). *)
Definition tri : Type := option bool.

Definition and3 (a b : tri) : tri :=
  match a, b with
  | Some false, _ | _, Some false => Some false
  | Some true, Some true => Some true
  | _, _ => None
  end.

(** A row is selected when the condition is true, not when it is
    unknown. *)
Definition holds (t : tri) : bool :=
  match t with
  | Some true => true
  | _ => false
  end.

(** [a = b] and [a != b] on nullable integer columns. *)
Definition eq_int (a b : option Z) : tri :=
  match a, b with
  | Some x, Some y => Some (Z.eqb x y)
  | _, _ => None
  end.

Definition ne_int (a b : option Z) : tri :=
  match a, b with
  | Some x, Some y => Some (negb (Z.eqb x y))
  | _, _ => None
  end.

(** [a = b] on text columns that hold no NULL. *)
Definition eq_text (a b : string) : tri := Some (String.eqb a b).

(** [MAX(...)]: NULL over no row. *)
Fixpoint agg_max (vs : list Z) : option Z :=
  match vs with
  | [] => None
  | v :: vs' =>
      match agg_max vs' with
      | None => Some v
      | Some m => Some (Z.max v m)
      end
  end.

Definition non_null {A : Type} (vs : list (option A)) : list A :=
  flat_map (fun v => match v with Some x => [x] | None => [] end) vs.

Definition total (vs : list Q) : Q := fold_right Qplus 0%Q vs.

(** [AVG(...)] and [SUM(...)] skip the NULLs and are NULL when nothing
    is left. *)
Definition agg_avg (vs : list (option Q)) : option Q :=
  match non_null vs with
  | [] => None
  | xs => Some (total xs / inject_Z (Z.of_nat (List.length xs)))%Q
  end.

Definition agg_sum (vs : list (option Q)) : option Q :=
  match non_null vs with
  | [] => None
  | xs => Some (total xs)
  end.

(** [x / d] for a nullable integer column and a float constant. *)
Definition div_float (x : option Z) (d : Q) : option Q :=
  option_map (fun v => (inject_Z v / d)%Q) x.

(** A decimal with two fractional digits, held as its count of
    hundredths. *)
Definition Dec2 : Type := Z.

(** [ROUND(x, 2)]: halves go away from zero. *)
Definition round2_Q (x : Q) : Dec2 :=
  let y := (x * 100)%Q in
  if Qle_bool 0 y then Qfloor (y + (1 # 2)) else - Qfloor (- y + (1 # 2)).

Definition round2 (x : option Q) : option Dec2 := option_map round2_Q x.

Section GroupBy.
Context {Row K : Type}.
Variable K_dec : forall a b : K, {a = b} + {a <> b}.
Variable key : Row -> K.

Definition in_group (k : K) (r : Row) : bool :=
  if K_dec (key r) k then true else false.

(** The groups of [GROUP BY key]: one per distinct key; a NULL in a
    key column is a key value like any other. *)
Definition group_keys (tbl : list Row) : list K :=
  nodup K_dec (map key tbl).

Definition members (k : K) (tbl : list Row) : list Row :=
  filter (in_group k) tbl.

(** [SELECT key, MAX(val) ... GROUP BY key] *)
Definition group_by_max (val : Row -> Z) (tbl : list Row)
  : list (K * option Z) :=
  map (fun k => (k, agg_max (map val (members k tbl)))) (group_keys tbl).
End GroupBy.

(** Rows are told apart by their place in the table. *)
Definition rowid : Type := nat.

Definition with_rowid {A : Type} (tbl : list A) : list (rowid * A) :=
  combine (seq 0 (List.length tbl)) tbl.

(** [query(A).join(r, on)]: the pairs on which [on] is true. *)
Definition join {A B : Type} (on : A -> B -> tri)
           (l : list (rowid * A)) (r : list B) : list ((rowid * A) * B) :=
  flat_map (fun a => map (fun b => (a, b))
                       (filter (fun b => holds (on (snd a) b)) r)) l.

(** Whether some row of [r] joins with [a]. *)
Definition hit {A B : Type} (on : A -> B -> tri) (r : list B) (a : A)
  : bool :=
  existsb (fun b => holds (on a b)) r.

Fixpoint unique {A : Type} (seen : list rowid) (l : list (rowid * A))
  : list (rowid * A) :=
  match l with
  | [] => []
  | a :: l' =>
      if existsb (Nat.eqb (fst a)) seen then unique seen l'
      else a :: unique (fst a :: seen) l'
  end.

(** [.all()] of a query for one mapped class: the objects, each once. *)
Definition all {A B : Type} (j : list ((rowid * A) * B))
  : list (rowid * A) :=
  unique [] (map fst j).

(** [for record in gone: db.session.delete(record)] and the commit. *)
Definition delete {A : Type} (gone : list (rowid * A)) (tbl : list A)
  : list A :=
  map snd (filter (fun p => negb (existsb (Nat.eqb (fst p)) (map fst gone)))
                  (with_rowid tbl)).

End Sql.

Notation "a &&& b" := (Sql.and3 a b) (at level 40, left associativity).

(** ** [load_data.py] *)

Module LoadData.

(** Modelled from the spec: the [WeatherRecord] model class lives in
    [models.py]; its columns are those of an Observation. *)
Record WeatherRecord : Type := mkWeatherRecord {
  date : string;
  max_temp : option Z;
  min_temp : option Z;
  precipitation : option Z;
  weather_station_id : string;
  ingestion_timestamp : Z
}.

(** [columns[i]] *)
Definition item (columns : list string) (i : nat) : result string :=
  match nth_error columns i with
  | Some c => ret c
  | None => raise IndexError
  end.

(** [int(columns[i]) if columns[i] != '-9999' else None] *)
Definition numeric (columns : list string) (i : nat) : result (option Z) :=
  c <- item columns i ;;
  if negb (String.eqb c "-9999") then
    c' <- item columns i ;;
    match PyStr.int c' with
    | Some n => ret (Some n)
    | None => raise ValueError
    end
  else ret None.

(** [line.strip().split('\t')] *)
Definition columns_of (line : string) : list string :=
  PyStr.split PyStr.TAB (PyStr.strip line).

(** The body of the loop over the lines of one file, up to the
    construction of the record; [now] is the reading of
    [datetime.utcnow()]. *)
Definition parse_line (line station : string) (now : Z)
  : result WeatherRecord :=
  let columns := columns_of line in
  d <- item columns 0 ;;
  mx <- numeric columns 1 ;;
  mn <- numeric columns 2 ;;
  pr <- numeric columns 3 ;;
  ret (mkWeatherRecord d mx mn pr station now).

(** *** [load_data_from_files] *)

(** The session: the committed table, the records added since the last
    commit (lost if the process ends before the next commit), and the
    running count. *)
Record Session : Type := mkSession {
  table : list WeatherRecord;
  pending : list WeatherRecord;
  record_count : nat
}.

Definition add (s : Session) (r : WeatherRecord) : Session :=
  mkSession (table s) (pending s ++ [r]) (S (record_count s)).

Definition commit (s : Session) : Session :=
  mkSession (table s ++ pending s) [] (record_count s).

Section Ingestion.
(** [utcnow n]: the clock as read for the record added after [n]
    others. *)
Variable utcnow : nat -> Z.

(** [for line in file: ...] *)
Fixpoint read_lines (station : string) (lines : list string) (s : Session)
  : Outcome Session :=
  match lines with
  | [] => Finished s
  | line :: rest =>
      match parse_line line station (utcnow (record_count s)) with
      | inl e => Raised e s
      | inr r => read_lines station rest (add s r)
      end
  end.

(** [for filename in os.listdir(directory): ...]; a directory is the
    list of its entries, each with the lines of the file. *)
Fixpoint load_files (entries : list (string * list string)) (s : Session)
  : Outcome Session :=
  match entries with
  | [] => Finished s
  | (filename, lines) :: rest =>
      if PyStr.endswith filename ".txt" then
        let station := PyStr.splitext_root filename in
        match read_lines station lines s with
        | Raised e s' => Raised e s'
        | Finished s' => load_files rest (commit s')
        end
      else load_files rest s
  end.

Definition load_data_from_files (directory : list (string * list string))
           (db : list WeatherRecord) : Outcome Session :=
  load_files directory (mkSession db [] 0).
End Ingestion.

(** *** [remove_duplicates] *)

(** The columns of the [group_by]. *)
Record Key : Type := mkKey {
  c_date : string;
  c_max_temp : option Z;
  c_min_temp : option Z;
  c_precipitation : option Z;
  c_weather_station_id : string
}.

Definition Key_dec (a b : Key) : {a = b} + {a <> b}.
Proof.
  decide equality;
    try apply string_dec;
    decide equality; apply Z.eq_dec.
Defined.

Definition key (r : WeatherRecord) : Key :=
  mkKey (date r) (max_temp r) (min_temp r) (precipitation r)
        (weather_station_id r).

Definition subquery (tbl : list WeatherRecord) : list (Key * option Z) :=
  Sql.group_by_max Key_dec key ingestion_timestamp tbl.

Definition max_ingestion_timestamp (g : Key * option Z) : option Z := snd g.

(** The [ON] condition of the join. *)
Definition on (r : WeatherRecord) (g : Key * option Z) : Sql.tri :=
  Sql.eq_text (date r) (c_date (fst g))
  &&& Sql.eq_int (max_temp r) (c_max_temp (fst g))
  &&& Sql.eq_int (min_temp r) (c_min_temp (fst g))
  &&& Sql.eq_int (precipitation r) (c_precipitation (fst g))
  &&& Sql.eq_text (weather_station_id r) (c_weather_station_id (fst g))
  &&& Sql.ne_int (Some (ingestion_timestamp r)) (max_ingestion_timestamp g).

Definition duplicates (tbl : list WeatherRecord)
  : list (Sql.rowid * WeatherRecord) :=
  Sql.all (Sql.join on (Sql.with_rowid tbl) (subquery tbl)).

(** The table after the commit, and [duplicate_count]. *)
Definition remove_duplicates (tbl : list WeatherRecord)
  : list WeatherRecord * nat :=
  let dups := duplicates tbl in
  (Sql.delete dups tbl, List.length dups).

(** No column of the key is NULL. *)
Definition no_null (k : Key) : bool :=
  match c_max_temp k, c_min_temp k, c_precipitation k with
  | Some _, Some _, Some _ => true
  | _, _, _ => false
  end.

(** What the loop body stores for the text of a numeric column. *)
Inductive stores : string -> option Z -> Prop :=
| stores_null : stores "-9999" None
| stores_int (f : string) (n : Z) :
    f <> "-9999" -> PyStr.int f = Some n -> stores f (Some n).

(** A line on which the loop body raises, whatever the file and the
    clock. *)
Definition malformed (line : string) : Prop :=
  exists e, forall station now, parse_line line station now = inl e.

End LoadData.


(** ** [calculate_statistics.py] *)

Module CalculateStatistics.

(** Modelled from the spec: the [WeatherStats] model class lives in
    [models.py]; its columns are those of a YearlyStat, [id] being the
    surrogate identity the store assigns on insert. *)
Record WeatherStats : Type := mkWeatherStats {
  id : Z;
  year : Z;
  weather_station_id : string;
  avg_max_temp : option Sql.Dec2;
  avg_min_temp : option Sql.Dec2;
  total_precipitation : option Sql.Dec2
}.

(** The stats table with the identity the next insert receives. *)
Record StatsDb : Type := mkStatsDb {
  rows : list WeatherStats;
  next_id : Z
}.

(** *** [calculate_statistics] *)

(** A row of the grouped query. *)
Record StatRow : Type := mkStatRow {
  r_year : string;
  r_weather_station_id : string;
  r_avg_max_temp : option Sql.Dec2;
  r_avg_min_temp : option Sql.Dec2;
  r_total_precipitation : option Sql.Dec2
}.

Definition GroupKey : Type := (string * string)%type.

Definition GroupKey_dec (a b : GroupKey) : {a = b} + {a <> b}.
Proof. decide equality; apply string_dec. Defined.

(** [substr(date, 1, 4), weather_station_id] *)
Definition group_key (r : LoadData.WeatherRecord) : GroupKey :=
  (PyStr.prefix 4 (LoadData.date r), LoadData.weather_station_id r).

Definition stat_row (tbl : list LoadData.WeatherRecord) (k : GroupKey)
  : StatRow :=
  let ms := Sql.members GroupKey_dec group_key k tbl in
  mkStatRow
    (fst k) (snd k)
    (Sql.round2 (Sql.agg_avg
       (map (fun r => Sql.div_float (LoadData.max_temp r) 10) ms)))
    (Sql.round2 (Sql.agg_avg
       (map (fun r => Sql.div_float (LoadData.min_temp r) 10) ms)))
    (Sql.round2 (Sql.agg_sum
       (map (fun r => Sql.div_float (LoadData.precipitation r) 100) ms))).

(** [records = db.session.query(...).group_by(...).all()] *)
Definition records (tbl : list LoadData.WeatherRecord) : list StatRow :=
  map (stat_row tbl) (Sql.group_keys GroupKey_dec group_key tbl).

(** A [WeatherStats] object before it is saved: it has no [id] yet. *)
Record Unsaved : Type := mkUnsaved {
  u_year : Z;
  u_weather_station_id : string;
  u_avg_max_temp : option Sql.Dec2;
  u_avg_min_temp : option Sql.Dec2;
  u_total_precipitation : option Sql.Dec2
}.

(** The row an object becomes once the store has given it an [id]. *)
Definition with_id (i : Z) (u : Unsaved) : WeatherStats :=
  mkWeatherStats i (u_year u) (u_weather_station_id u) (u_avg_max_temp u)
                 (u_avg_min_temp u) (u_total_precipitation u).

Definition insert (db : StatsDb) (u : Unsaved) : StatsDb :=
  mkStatsDb (rows db ++ [with_id (next_id db) u]) (next_id db + 1).

(** The rows a batch becomes when the first of them receives the
    identity [i]. *)
Fixpoint numbered (i : Z) (batch : list Unsaved) : list WeatherStats :=
  match batch with
  | [] => []
  | u :: rest => with_id i u :: numbered (i + 1) rest
  end.

(** [db.session.bulk_save_objects(batch); db.session.commit()] *)
Definition bulk_save_objects (db : StatsDb) (batch : list Unsaved)
  : StatsDb :=
  fold_left insert batch db.

(** The object the loop body builds from a row of the query. *)
Definition built_from (record : StatRow) (u : Unsaved) : Prop :=
  PyStr.int (r_year record) = Some (u_year u)
  /\ u_weather_station_id u = r_weather_station_id record
  /\ u_avg_max_temp u = r_avg_max_temp record
  /\ u_avg_min_temp u = r_avg_min_temp record
  /\ u_total_precipitation u = r_total_precipitation record.

Definition batch_size : nat := 1000.

(** [for record in records: ...] and the flush of the last batch. *)
Fixpoint save_loop (recs : list StatRow) (batch : list Unsaved)
         (db : StatsDb) : Outcome StatsDb :=
  match recs with
  | [] =>
      match batch with
      | [] => Finished db
      | _ => Finished (bulk_save_objects db batch)
      end
  | record :: rest =>
      match PyStr.int (r_year record) with
      | None => Raised ValueError db
      | Some y =>
          let weather_stat :=
            mkUnsaved y (r_weather_station_id record)
                      (r_avg_max_temp record) (r_avg_min_temp record)
                      (r_total_precipitation record) in
          let batch' := batch ++ [weather_stat] in
          if (batch_size <=? List.length batch')%nat
          then save_loop rest [] (bulk_save_objects db batch')
          else save_loop rest batch' db
      end
  end.

Definition calculate_statistics (tbl : list LoadData.WeatherRecord)
           (db : StatsDb) : Outcome StatsDb :=
  save_loop (records tbl) [] db.

(** *** [remove_duplicates] *)

Record Key : Type := mkKey {
  c_year : Z;
  c_weather_station_id : string;
  c_avg_max_temp : option Sql.Dec2;
  c_avg_min_temp : option Sql.Dec2;
  c_total_precipitation : option Sql.Dec2
}.

Definition Key_dec (a b : Key) : {a = b} + {a <> b}.
Proof.
  decide equality;
    try apply string_dec; try apply Z.eq_dec;
    decide equality; apply Z.eq_dec.
Defined.

Definition key (r : WeatherStats) : Key :=
  mkKey (year r) (weather_station_id r) (avg_max_temp r) (avg_min_temp r)
        (total_precipitation r).

Definition subquery (tbl : list WeatherStats) : list (Key * option Z) :=
  Sql.group_by_max Key_dec key id tbl.

Definition max_id (g : Key * option Z) : option Z := snd g.

Definition on (r : WeatherStats) (g : Key * option Z) : Sql.tri :=
  Sql.eq_int (Some (year r)) (Some (c_year (fst g)))
  &&& Sql.eq_text (weather_station_id r) (c_weather_station_id (fst g))
  &&& Sql.eq_int (avg_max_temp r) (c_avg_max_temp (fst g))
  &&& Sql.eq_int (avg_min_temp r) (c_avg_min_temp (fst g))
  &&& Sql.eq_int (total_precipitation r) (c_total_precipitation (fst g))
  &&& Sql.ne_int (Some (id r)) (max_id g).

Definition duplicates (tbl : list WeatherStats)
  : list (Sql.rowid * WeatherStats) :=
  Sql.all (Sql.join on (Sql.with_rowid tbl) (subquery tbl)).

Definition remove_duplicates (tbl : list WeatherStats)
  : list WeatherStats * nat :=
  let dups := duplicates tbl in
  (Sql.delete dups tbl, List.length dups).

(** No column of the key is NULL. *)
Definition no_null (k : Key) : bool :=
  match c_avg_max_temp k, c_avg_min_temp k, c_total_precipitation k with
  | Some _, Some _, Some _ => true
  | _, _, _ => false
  end.

End CalculateStatistics.

(** ** Sample data *)

Module Samples.

(** Two ingestions of the line [20200101 -9999 -50 0] of one station. *)
Definition gap_old : LoadData.WeatherRecord :=
  LoadData.mkWeatherRecord "20200101" None (Some (-50)) (Some 0)
                           "USW00094728" 1.
Definition gap_new : LoadData.WeatherRecord :=
  LoadData.mkWeatherRecord "20200101" None (Some (-50)) (Some 0)
                           "USW00094728" 2.

(** Two ingestions of the line [20200101 100 -50 0]. *)
Definition full_old : LoadData.WeatherRecord :=
  LoadData.mkWeatherRecord "20200101" (Some 100) (Some (-50)) (Some 0)
                           "USW00094728" 1.
Definition full_new : LoadData.WeatherRecord :=
  LoadData.mkWeatherRecord "20200101" (Some 100) (Some (-50)) (Some 0)
                           "USW00094728" 2.

(** The statistics of a year without any maximum temperature, computed
    twice. *)
Definition stat_gap_1 : CalculateStatistics.WeatherStats :=
  CalculateStatistics.mkWeatherStats 1 2020 "USW00094728" None
                                     (Some (-500)) (Some 0).
Definition stat_gap_2 : CalculateStatistics.WeatherStats :=
  CalculateStatistics.mkWeatherStats 2 2020 "USW00094728" None
                                     (Some (-500)) (Some 0).

(** The statistics of one year and station computed three times, the
    last time after more data came in. *)
Definition stat_a_1 : CalculateStatistics.WeatherStats :=
  CalculateStatistics.mkWeatherStats 1 2020 "USW00094728" (Some 1000)
                                     (Some (-500)) (Some 0).
Definition stat_a_2 : CalculateStatistics.WeatherStats :=
  CalculateStatistics.mkWeatherStats 2 2020 "USW00094728" (Some 1000)
                                     (Some (-500)) (Some 0).
Definition stat_b_3 : CalculateStatistics.WeatherStats :=
  CalculateStatistics.mkWeatherStats 3 2020 "USW00094728" (Some 1250)
                                     (Some (-500)) (Some 0).

Definition clock (n : nat) : Z := Z.of_nat n.

Definition good_line : string := tab_join ["20200101"; "100"; "-50"; "0"].

(** The missing value written with a leading zero. *)
Definition padded_line : string :=
  tab_join ["20200101"; "-09999"; "-50"; "0"].


Definition short_line : string := tab_join ["20200101"; "100"; "-50"].

(** Station [USW00094728] in 2020: maxima 100 and 200 and one missing,
    precipitation 50 and 150 and one missing, no minimum at all. *)
Definition year_2020 : list LoadData.WeatherRecord :=
  [ LoadData.mkWeatherRecord "20200101" (Some 100) None (Some 50)
                             "USW00094728" 1;
    LoadData.mkWeatherRecord "20200102" None None (Some 150)
                             "USW00094728" 2;
    LoadData.mkWeatherRecord "20200103" (Some 200) None None
                             "USW00094728" 3 ].

Definition good_record : LoadData.WeatherRecord :=
  LoadData.mkWeatherRecord "20200101" (Some 100) (Some (-50)) (Some 0) "b" 0.

(** A line that starts with a tab: its tab-separated fields are an empty
    one, a dashed date, and three integers. *)
Definition leading_tab_line : string :=
  String PyStr.TAB (tab_join ["2020-01-01"; "100"; "-50"; "0"]).


(** A line whose second field is not a number. *)
Definition value_error_line : string :=
  tab_join ["20200101"; "abc"; "-50"; "0"].

(** Rows of the grouped query for 1005 stations of 2020, then a row
    whose year is not a number, then one more row. *)
Definition station_name (n : nat) : string :=
  String (ascii_of_nat (48 + (n / 1000) mod 10))
    (String (ascii_of_nat (48 + (n / 100) mod 10))
       (String (ascii_of_nat (48 + (n / 10) mod 10))
          (String (ascii_of_nat (48 + n mod 10)) ""))).

Definition many_rows : list CalculateStatistics.StatRow :=
  map (fun n => CalculateStatistics.mkStatRow
                  "2020" (station_name n) (Some 1000) (Some (-500)) (Some 0))
      (seq 0 1005)
  ++ [CalculateStatistics.mkStatRow "oops" "0000" None None None;
      CalculateStatistics.mkStatRow "2021" "0000" (Some 1000) None None].

End Samples.

(** ** The aggregates as the specification words them *)

Module Spec.

Definition sum (xs : list Z) : Z := fold_right Z.add 0 xs.

(** mean of the values *)
Definition mean (xs : list Z) : Q :=
  (inject_Z (sum xs) / inject_Z (Z.of_nat (List.length xs)))%Q.

(** round(mean(field for non-null members) / 10.0, 2), null when every
    member is null *)
Definition avg_temp (field : list (option Z)) : option Sql.Dec2 :=
  match Sql.non_null field with
  | [] => None
  | xs => Some (Sql.round2_Q (mean xs / 10))
  end.

(** round(sum(field for non-null members) / 100.0, 2), null when every
    member is null *)
Definition total_precipitation (field : list (option Z))
  : option Sql.Dec2 :=
  match Sql.non_null field with
  | [] => None
  | xs => Some (Sql.round2_Q (inject_Z (sum xs) / 100))
  end.

(** The YearlyStat of the group [k] of the Observations [tbl]. *)
Definition yearly_stat (tbl : list LoadData.WeatherRecord)
           (k : CalculateStatistics.GroupKey)
           (s : CalculateStatistics.WeatherStats) : Prop :=
  let ms := Sql.members CalculateStatistics.GroupKey_dec
                        CalculateStatistics.group_key k tbl in
  PyStr.int (fst k) = Some (CalculateStatistics.year s)
  /\ CalculateStatistics.weather_station_id s = snd k
  /\ CalculateStatistics.avg_max_temp s
     = avg_temp (map LoadData.max_temp ms)
  /\ CalculateStatistics.avg_min_temp s
     = avg_temp (map LoadData.min_temp ms)
  /\ CalculateStatistics.total_precipitation s
     = total_precipitation (map LoadData.precipitation ms).

End Spec.

(** ** The two scripts and the vocabulary of their properties *)

Module Script.

(** A directory entry that [load_data_from_files] reads. *)
Definition is_txt (entry : string * list string) : bool :=
  PyStr.endswith (fst entry) ".txt".

(** A line made of white space only (the empty line included). *)
Definition blank (line : string) : Prop :=
  forall c, In c (list_ascii_of_string line) -> PyStr.is_space c = true.

(** The [__main__] block of [load_data.py]: ingest ['wx_data'], then
    remove the duplicates; an exception of the first step ends the
    script. The result is the table of weather records. *)
Definition load_data_main (utcnow : nat -> Z)
           (wx_data : list (string * list string))
           (db : list LoadData.WeatherRecord)
  : Outcome (list LoadData.WeatherRecord) :=
  match LoadData.load_data_from_files utcnow wx_data db with
  | Raised e s => Raised e (LoadData.table s)
  | Finished s => Finished (fst (LoadData.remove_duplicates (LoadData.table s)))
  end.

(** The [__main__] block of [calculate_statistics.py]: aggregate, then
    remove the duplicate statistics. *)
Definition calculate_statistics_main
           (tbl : list LoadData.WeatherRecord)
           (db : CalculateStatistics.StatsDb)
  : Outcome CalculateStatistics.StatsDb :=
  match CalculateStatistics.calculate_statistics tbl db with
  | Raised e db' => Raised e db'
  | Finished db' =>
      Finished (CalculateStatistics.mkStatsDb
                  (fst (CalculateStatistics.remove_duplicates
                          (CalculateStatistics.rows db')))
                  (CalculateStatistics.next_id db'))
  end.

(** The identities in use are distinct and below the next one the store
    hands out. *)
Definition ids_fresh (db : CalculateStatistics.StatsDb) : Prop :=
  NoDup (map CalculateStatistics.id (CalculateStatistics.rows db))
  /\ forall r, In r (CalculateStatistics.rows db) ->
               CalculateStatistics.id r < CalculateStatistics.next_id db.

End Script.

(** * Facts about the store operations *)

Section SqlFacts.

Lemma holds_and3 (a b : Sql.tri) :
  Sql.holds (a &&& b) = true <-> Sql.holds a = true /\ Sql.holds b = true.
Proof.
  destruct a as [[|]|], b as [[|]|]; simpl; intuition congruence.
Qed.

Lemma holds_eq_int (a b : option Z) :
  Sql.holds (Sql.eq_int a b) = true <-> exists x, a = Some x /\ b = Some x.
Proof.
  destruct a as [x|], b as [y|]; simpl; split.
  - destruct (Z.eqb_spec x y); [subst; eauto | discriminate].
  - intros (z & Hx & Hy). inversion Hx; inversion Hy; subst.
    now rewrite Z.eqb_refl.
  - discriminate.
  - intros (z & _ & Hy); discriminate.
  - discriminate.
  - intros (z & Hx & _); discriminate.
  - discriminate.
  - intros (z & Hx & _); discriminate.
Qed.

Lemma holds_ne_int (a b : option Z) :
  Sql.holds (Sql.ne_int a b) = true <->
  exists x y, a = Some x /\ b = Some y /\ x <> y.
Proof.
  destruct a as [x|], b as [y|]; simpl; split;
    try discriminate;
    try (intros (u & v & Hu & Hv & _); discriminate).
  - destruct (Z.eqb_spec x y); [discriminate | eauto].
  - intros (u & v & Hu & Hv & Hne). inversion Hu; inversion Hv; subst.
    destruct (Z.eqb_spec u v); [contradiction | reflexivity].
Qed.

Lemma holds_eq_text (a b : string) :
  Sql.holds (Sql.eq_text a b) = true <-> a = b.
Proof.
  unfold Sql.eq_text; simpl.
  destruct (String.eqb_spec a b); intuition congruence.
Qed.

Lemma agg_max_bound (vs : list Z) (m : Z) :
  Sql.agg_max vs = Some m -> In m vs /\ forall v, In v vs -> v <= m.
Proof.
  revert m; induction vs as [|v vs IH]; simpl; intros m Hm.
  - discriminate.
  - destruct (Sql.agg_max vs) as [m'|] eqn:E.
    + destruct (IH m' eq_refl) as [Hin Hle].
      inversion Hm; subst; clear Hm. split.
      * destruct (Z.max_spec v m') as [[_ ->]|[_ ->]]; auto.
      * intros w [<-|Hw]; [lia|]. specialize (Hle w Hw). lia.
    + inversion Hm; subst. split; [now left|].
      destruct vs; [|simpl in E; destruct (Sql.agg_max vs); discriminate].
      intros w [<-|[]]; lia.
Qed.

Lemma agg_max_some (vs : list Z) (v : Z) :
  In v vs -> exists m, Sql.agg_max vs = Some m.
Proof.
  destruct vs as [|w vs]; [intros []|intros _].
  simpl. destruct (Sql.agg_max vs); eauto.
Qed.

Context {A : Type}.

Lemma combine_seq_In (l : list A) (s n i : nat) (a : A) :
  In (i, a) (combine (seq s n) l) ->
  (s <= i)%nat /\ nth_error l (i - s) = Some a.
Proof.
  revert s n; induction l as [|x l IH]; intros s n Hin.
  - destruct (seq s n); contradiction.
  - destruct n as [|n]; [contradiction|].
    simpl in Hin. destruct Hin as [Heq|Hin].
    + inversion Heq; subst. rewrite Nat.sub_diag. split; [lia|reflexivity].
    + apply IH in Hin. destruct Hin as [Hle Hnth]. split; [lia|].
      replace (i - s)%nat with (S (i - S s)) by lia. exact Hnth.
Qed.

Lemma with_rowid_functional (tbl : list A) (i : nat) (a b : A) :
  In (i, a) (Sql.with_rowid tbl) -> In (i, b) (Sql.with_rowid tbl) -> a = b.
Proof.
  unfold Sql.with_rowid. intros Ha Hb.
  apply combine_seq_In in Ha. apply combine_seq_In in Hb.
  destruct Ha as [_ Ha], Hb as [_ Hb]. congruence.
Qed.

Lemma with_rowid_snd (tbl : list A) (i : nat) (a : A) :
  In (i, a) (Sql.with_rowid tbl) -> In a tbl.
Proof.
  unfold Sql.with_rowid. intros H. now apply in_combine_r in H.
Qed.

Lemma filter_snd_combine (f : A -> bool) (l : list A) (ids : list nat) :
  List.length ids = List.length l ->
  map snd (filter (fun p => f (snd p)) (combine ids l)) = filter f l.
Proof.
  revert ids; induction l as [|x l IH]; intros [|i ids] Hlen;
    simpl in *; try discriminate; try reflexivity.
  destruct (f x); simpl; rewrite IH by lia; reflexivity.
Qed.

Lemma delete_nothing (tbl : list A) : Sql.delete [] tbl = tbl.
Proof.
  unfold Sql.delete, Sql.with_rowid.
  transitivity (filter (fun _ : A => true) tbl).
  - apply (filter_snd_combine (fun _ => true)), length_seq.
  - induction tbl as [|x l IH]; simpl; [reflexivity | now rewrite IH].
Qed.

Lemma unique_ids (seen : list nat) (l : list (nat * A)) (i : nat) :
  In i (map fst (Sql.unique seen l)) <->
  In i (map fst l) /\ ~ In i seen.
Proof.
  revert seen; induction l as [|[j a] l IH]; intros seen; simpl.
  - tauto.
  - destruct (existsb (Nat.eqb j) seen) eqn:E.
    + apply existsb_exists in E. destruct E as (k & Hk & Hjk).
      apply Nat.eqb_eq in Hjk. subst k.
      rewrite IH. split.
      * tauto.
      * intros [[<-|H] Hn]; [contradiction | tauto].
    + assert (Hj : ~ In j seen).
      { intros Hin.
        assert (existsb (Nat.eqb j) seen = true)
          by (apply existsb_exists; exists j; split;
              [assumption | apply Nat.eqb_refl]).
        congruence. }
      simpl. rewrite IH. simpl. split.
      * intros [<-|[H Hn]]; [tauto|]. split; [tauto|]. tauto.
      * intros [[<-|H] Hn]; [tauto|].
        destruct (Nat.eq_dec j i) as [->|Hne]; [tauto|]. right. tauto.
Qed.

Lemma existsb_false_filter {B : Type} (f : B -> bool) (l : list B) :
  existsb f l = false -> filter f l = [].
Proof.
  induction l as [|x l IH]; simpl; [reflexivity|].
  destruct (f x); simpl; [discriminate | exact IH].
Qed.

Context {B : Type}.
Variable on : A -> B -> Sql.tri.

Local Abbreviation hit := (Sql.hit on).

Lemma join_ids (l : list (nat * A)) (r : list B) (i : nat) :
  In i (map fst (map fst (Sql.join on l r))) <->
  exists a, In (i, a) l /\ hit r a = true.
Proof.
  unfold Sql.join, Sql.hit. rewrite map_map, in_map_iff. split.
  - intros ([[j a] b] & Hi & Hin). simpl in Hi. subst j.
    apply in_flat_map in Hin. destruct Hin as ([j a'] & Hl & Hin).
    apply in_map_iff in Hin. destruct Hin as (b' & Heq & Hb).
    inversion Heq; subst. apply filter_In in Hb. simpl in Hb.
    exists a. split; [assumption|].
    apply existsb_exists. exists b. tauto.
  - intros (a & Hl & Hhit). apply existsb_exists in Hhit.
    destruct Hhit as (b & Hb & Hon).
    exists ((i, a), b). split; [reflexivity|].
    apply in_flat_map. exists (i, a). split; [assumption|].
    apply in_map. apply filter_In. tauto.
Qed.

Lemma join_no_hit (l : list (nat * A)) (r : list B) :
  (forall i a, In (i, a) l -> hit r a = false) -> Sql.join on l r = [].
Proof.
  unfold Sql.join. induction l as [|[i a] l IH]; intros H; simpl.
  - reflexivity.
  - rewrite (existsb_false_filter _ r (H i a (or_introl eq_refl))).
    simpl. apply IH. intros j b Hj. apply (H j b). now right.
Qed.

(** Deleting the objects the join returns keeps the rows that join with
    nothing. *)
Lemma delete_join (tbl : list A) (r : list B) :
  Sql.delete (Sql.all (Sql.join on (Sql.with_rowid tbl) r)) tbl
  = filter (fun a => negb (hit r a)) tbl.
Proof.
  unfold Sql.delete.
  rewrite <- (filter_snd_combine (fun a => negb (hit r a)) tbl
                (seq 0 (List.length tbl))) by apply length_seq.
  f_equal. apply filter_ext_in. intros [i a] Hin. simpl. f_equal.
  destruct (hit r a) eqn:Hh.
  - apply existsb_exists. exists i. split; [|apply Nat.eqb_refl].
    unfold Sql.all. apply unique_ids. split; [|intros []].
    apply join_ids. eauto.
  - destruct (existsb _ _) eqn:E; [|reflexivity].
    apply existsb_exists in E. destruct E as (j & Hj & Hij).
    apply Nat.eqb_eq in Hij. subst j.
    unfold Sql.all in Hj. apply unique_ids in Hj. destruct Hj as [Hj _].
    apply join_ids in Hj. destruct Hj as (a' & Ha' & Hhit).
    rewrite (with_rowid_functional tbl i a a' Hin Ha') in Hh. congruence.
Qed.

End SqlFacts.

(** * Duplicate removal by "group, take the maximum, join back, delete"

    Both [remove_duplicates] functions have this shape; they differ in the
    table, the grouping columns and the column that is maximised. *)

Section Dedup.

Context {Row K : Type}.
Variable K_dec : forall a b : K, {a = b} + {a <> b}.
Variable key : Row -> K.
Variable tie : Row -> Z.
Variable on : Row -> K * option Z -> Sql.tri.

(** [joinable k]: no column of [k] is NULL. *)
Variable joinable : K -> bool.

Hypothesis on_iff : forall r k m,
  Sql.holds (on r (k, m)) = true <->
  key r = k /\ joinable k = true /\ exists z, m = Some z /\ tie r <> z.

Local Abbreviation groups := (Sql.group_by_max K_dec key tie).
Local Abbreviation group_max k tbl :=
  (Sql.agg_max (map tie (Sql.members K_dec key k tbl))).
Local Abbreviation doomed tbl := (Sql.hit on (groups tbl)).
Local Abbreviation run tbl :=
  (let dups := Sql.all (Sql.join on (Sql.with_rowid tbl) (groups tbl)) in
   (Sql.delete dups tbl, List.length dups)).

Lemma member_iff (k : K) (tbl : list Row) (r : Row) :
  In r (Sql.members K_dec key k tbl) <-> In r tbl /\ key r = k.
Proof.
  unfold Sql.members, Sql.in_group. rewrite filter_In.
  destruct (K_dec (key r) k); intuition congruence.
Qed.

Lemma group_max_some (tbl : list Row) (r : Row) :
  In r tbl -> exists m, group_max (key r) tbl = Some m /\ tie r <= m.
Proof.
  intros Hin.
  assert (Hm : In (tie r) (map tie (Sql.members K_dec key (key r) tbl)))
    by (apply in_map, member_iff; auto).
  destruct (agg_max_some _ _ Hm) as [m Em].
  exists m. split; [assumption|].
  now apply (agg_max_bound _ _ Em).
Qed.

Lemma group_max_attained (tbl : list Row) (k : K) (m : Z) :
  group_max k tbl = Some m ->
  exists r, In r tbl /\ key r = k /\ tie r = m.
Proof.
  intros Em. destruct (agg_max_bound _ _ Em) as [Hin _].
  apply in_map_iff in Hin. destruct Hin as (r & Hr & Hmem).
  apply member_iff in Hmem. exists r. tauto.
Qed.

(** A row is deleted exactly when its key has no NULL and it does not
    carry the maximum of its group. *)
Lemma doomed_iff (tbl : list Row) (r : Row) :
  In r tbl ->
  (doomed tbl r = true <->
   joinable (key r) = true /\
   exists m, group_max (key r) tbl = Some m /\ tie r <> m).
Proof.
  intros Hin. unfold Sql.hit, Sql.group_by_max.
  rewrite existsb_exists. split.
  - intros ([k m] & Hg & Hon). apply on_iff in Hon.
    destruct Hon as (Hk & Hj & z & -> & Hne). subst k.
    apply in_map_iff in Hg. destruct Hg as (k' & Heq & _).
    inversion Heq; subst. eauto.
  - intros (Hj & m & Em & Hne).
    exists (key r, Some m). split.
    + apply in_map_iff. exists (key r). rewrite Em. split; [reflexivity|].
      apply nodup_In, in_map, Hin.
    + apply on_iff. eauto.
Qed.

Lemma run_fst (tbl : list Row) :
  fst (run tbl) = filter (fun r => negb (doomed tbl r)) tbl.
Proof. simpl. apply delete_join. Qed.

Lemma null_key_kept (tbl : list Row) (r : Row) :
  In r tbl -> joinable (key r) = false -> In r (fst (run tbl)).
Proof.
  intros Hin Hj. rewrite run_fst. apply filter_In. split; [assumption|].
  destruct (doomed tbl r) eqn:E; [|reflexivity].
  apply (doomed_iff tbl r Hin) in E. destruct E as [E _]. congruence.
Qed.

Lemma kept_iff (tbl : list Row) (r : Row) :
  joinable (key r) = true ->
  (In r (fst (run tbl)) <->
   In r tbl /\ group_max (key r) tbl = Some (tie r)).
Proof.
  intros Hj. rewrite run_fst, filter_In. split.
  - intros [Hin Hd]. split; [assumption|].
    destruct (group_max_some tbl r Hin) as (m & Em & _).
    destruct (Z.eq_dec (tie r) m) as [->|Hne]; [assumption|].
    assert (doomed tbl r = true) by (apply doomed_iff; eauto).
    rewrite H in Hd. discriminate.
  - intros [Hin Em]. split; [assumption|].
    destruct (doomed tbl r) eqn:E; [|reflexivity].
    apply (doomed_iff tbl r Hin) in E.
    destruct E as (_ & m & Em' & Hne). congruence.
Qed.

(** After one run nothing is left to delete. *)
Lemma nothing_doomed_after (tbl : list Row) (r : Row) :
  In r (fst (run tbl)) -> doomed (fst (run tbl)) r = false.
Proof.
  intros Hkept. destruct (doomed (fst (run tbl)) r) eqn:E; [|reflexivity].
  apply (doomed_iff _ r Hkept) in E. destruct E as (Hj & m & Em & Hne).
  destruct (group_max_some _ r Hkept) as (m' & Em' & Hle).
  rewrite Em in Em'. inversion Em'; subst m'.
  destruct (group_max_attained _ _ _ Em) as (r' & Hr' & Hk & Ht).
  assert (Hr : In r tbl) by (rewrite run_fst in Hkept;
                             now apply filter_In in Hkept).
  assert (Hr'0 : In r' tbl) by (rewrite run_fst in Hr';
                                now apply filter_In in Hr').
  apply (kept_iff tbl r Hj) in Hkept. destruct Hkept as [_ Emax].
  destruct (agg_max_bound _ _ Emax) as [_ Hub].
  assert (tie r' <= tie r).
  { apply Hub, in_map, member_iff. auto. }
  lia.
Qed.

Lemma run_twice (tbl : list Row) :
  run (fst (run tbl)) = (fst (run tbl), 0%nat).
Proof.
  set (t1 := fst (run tbl)).
  assert (Hnone : forall r, In r t1 -> doomed t1 r = false)
    by (intros r Hr; now apply nothing_doomed_after).
  assert (Hj : Sql.join on (Sql.with_rowid t1) (groups t1) = []).
  { apply join_no_hit. intros i a Hia. apply Hnone.
    now apply with_rowid_snd in Hia. }
  cbv zeta. rewrite Hj. simpl. f_equal. apply delete_nothing.
Qed.

Lemma distinct_ties_filter (keep : Row -> bool) (tbl : list Row) :
  NoDup (map tie tbl) -> NoDup (map tie (filter keep tbl)).
Proof.
  induction tbl as [|r tbl IH]; simpl; intros Hnd; [constructor|].
  apply NoDup_cons_iff in Hnd. destruct Hnd as [Hfresh Hnd].
  destruct (keep r); simpl; [|auto].
  apply NoDup_cons; [|auto].
  intros Hin. apply Hfresh. apply in_map_iff in Hin.
  destruct Hin as (r' & Heq & Hr'). apply filter_In in Hr'.
  apply in_map_iff. exists r'. tauto.
Qed.

(** When the maximised column identifies the row, a group without NULL is
    left with one row at most. *)
Lemma at_most_one_kept (tbl : list Row) (k : K) :
  NoDup (map tie tbl) -> joinable k = true ->
  (List.length (Sql.members K_dec key k (fst (run tbl))) <= 1)%nat.
Proof.
  intros Hnd Hj.
  assert (Hsame : forall r,
             In r (Sql.members K_dec key k (fst (run tbl))) ->
             group_max k tbl = Some (tie r)).
  { intros r Hr. apply member_iff in Hr. destruct Hr as [Hr Hk]. subst k.
    apply (kept_iff tbl r Hj) in Hr. tauto. }
  assert (Hnd' : NoDup (map tie (Sql.members K_dec key k (fst (run tbl))))).
  { rewrite run_fst. unfold Sql.members. now do 2 apply distinct_ties_filter. }
  destruct (Sql.members K_dec key k (fst (run tbl))) as [|a [|b l]];
    simpl; try lia.
  exfalso.
  assert (Ha := Hsame a (or_introl eq_refl)).
  assert (Hb := Hsame b (or_intror (or_introl eq_refl))).
  rewrite Ha in Hb. inversion Hb as [Hab].
  simpl in Hnd'. inversion Hnd' as [|x xs Hnin _]; subst.
  apply Hnin. left. symmetry. exact Hab.
Qed.

End Dedup.

(** * [load_data.remove_duplicates] *)

Section RawDedup.

Import LoadData.

Lemma raw_on_iff (r : WeatherRecord) (k : Key) (m : option Z) :
  Sql.holds (on r (k, m)) = true <->
  key r = k /\ no_null k = true /\
  exists z, m = Some z /\ ingestion_timestamp r <> z.
Proof.
  unfold on, max_ingestion_timestamp. rewrite !holds_and3.
  rewrite !holds_eq_text, !holds_eq_int, holds_ne_int.
  destruct r as [d mx mn pr st ts], k as [kd kmx kmn kpr kst].
  unfold key, no_null. simpl. split.
  - intros (((((Hd & x & Hx & Hkx) & y & Hy & Hky) & z & Hz & Hkz) & Hs)
            & u & v & Hu & Hv & Hne).
    subst. inversion Hu; subst. repeat split; eauto.
  - intros (Hk & Hnn & z & Hm & Hne). inversion Hk; subst.
    destruct kmx as [x|]; [|discriminate].
    destruct kmn as [y|]; [|discriminate].
    destruct kpr as [w|]; [|discriminate].
    repeat split; eauto.
Qed.

Lemma raw_run_twice (tbl : list WeatherRecord) :
  remove_duplicates (fst (remove_duplicates tbl))
  = (fst (remove_duplicates tbl), 0%nat).
Proof.
  exact (run_twice Key_dec key ingestion_timestamp on no_null raw_on_iff tbl).
Qed.

(** Where no business column is NULL the function does what its
    docstring says: of the records with equal columns, those carrying the
    latest ingestion timestamp stay and the others go. *)
Lemma raw_non_null_kept_iff (tbl : list WeatherRecord) (r : WeatherRecord) :
  no_null (key r) = true ->
  (In r (fst (remove_duplicates tbl)) <->
   In r tbl /\
   Sql.agg_max (map ingestion_timestamp (Sql.members Key_dec key (key r) tbl))
   = Some (ingestion_timestamp r)).
Proof.
  exact (kept_iff Key_dec key ingestion_timestamp on no_null raw_on_iff tbl r).
Qed.

(** C9: a record in which [max_temp], [min_temp] or [precipitation] is
    NULL is never deleted by [load_data.remove_duplicates], whatever else
    the table holds (a later copy of it included): the equalities of the
    join are not true on a NULL. *)
Theorem raw_null_record_never_deleted
        (tbl : list WeatherRecord) (r : WeatherRecord) :
  In r tbl ->
  max_temp r = None \/ min_temp r = None \/ precipitation r = None ->
  In r (fst (remove_duplicates tbl)).
Proof.
  intros Hin Hnull.
  apply (null_key_kept Key_dec key ingestion_timestamp on no_null raw_on_iff
           tbl r Hin).
  unfold no_null, key. simpl.
  destruct Hnull as [-> | [-> | ->]]; [reflexivity | |].
  - now destruct (max_temp r).
  - now destruct (max_temp r), (min_temp r).
Qed.

Lemma raw_null_record_never_deleted_witness :
  In Samples.gap_old [Samples.gap_old; Samples.gap_new] /\
  In Samples.gap_old
     (fst (remove_duplicates [Samples.gap_old; Samples.gap_new])).
Proof.
  split; [now left|].
  apply (raw_null_record_never_deleted [Samples.gap_old; Samples.gap_new]
           Samples.gap_old); [now left | now left].
Defined.

(** C1: at a group whose [max_temp] is NULL the function deletes nothing:
    both copies of the record stay and the count is 0, although the copy
    ingested first is the older one of a group of two. *)
Theorem raw_null_group_not_deduplicated :
  remove_duplicates [Samples.gap_old; Samples.gap_new]
  = ([Samples.gap_old; Samples.gap_new], 0%nat).
Proof. vm_compute. reflexivity. Qed.

(** The same two records with a [max_temp]: the older one is deleted. *)
Example raw_full_group_deduplicated :
  remove_duplicates [Samples.full_old; Samples.full_new]
  = ([Samples.full_new], 1%nat).
Proof. vm_compute. reflexivity. Qed.

End RawDedup.

(** * [calculate_statistics.remove_duplicates] *)

Section StatsDedup.

Import CalculateStatistics.

Lemma stats_on_iff (r : WeatherStats) (k : Key) (m : option Z) :
  Sql.holds (on r (k, m)) = true <->
  key r = k /\ no_null k = true /\ exists z, m = Some z /\ id r <> z.
Proof.
  unfold on, max_id. rewrite !holds_and3.
  rewrite !holds_eq_text, !holds_eq_int, holds_ne_int.
  destruct r as [i y st amx amn tp], k as [ky kst kmx kmn ktp].
  unfold key, no_null. simpl. split.
  - intros (((((( x0 & Hy & Hky) & Hs) & x & Hx & Hkx) & y' & Hy' & Hky')
             & z & Hz & Hkz) & u & v & Hu & Hv & Hne).
    subst. inversion Hu; inversion Hy; inversion Hky; subst.
    repeat split; eauto.
  - intros (Hk & Hnn & z & Hm & Hne). inversion Hk; subst.
    destruct kmx as [x|]; [|discriminate].
    destruct kmn as [y'|]; [|discriminate].
    destruct ktp as [w|]; [|discriminate].
    repeat split; eauto.
Qed.

Lemma stats_run_twice (tbl : list WeatherStats) :
  remove_duplicates (fst (remove_duplicates tbl))
  = (fst (remove_duplicates tbl), 0%nat).
Proof.
  exact (run_twice Key_dec key id on no_null stats_on_iff tbl).
Qed.

(** Among rows equal on the five value columns, none of them NULL, the
    rows with the greatest [id] stay and the others go. *)
Lemma stats_non_null_kept_iff (tbl : list WeatherStats) (r : WeatherStats) :
  no_null (key r) = true ->
  (In r (fst (remove_duplicates tbl)) <->
   In r tbl /\
   Sql.agg_max (map id (Sql.members Key_dec key (key r) tbl)) = Some (id r)).
Proof.
  exact (kept_iff Key_dec key id on no_null stats_on_iff tbl r).
Qed.

(** C3: at a group whose [avg_max_temp] is NULL the function deletes
    nothing: both rows stay and the count is 0, although the row with
    [id] 1 is not the one with the greatest [id]. *)
Theorem stats_null_group_not_deduplicated :
  remove_duplicates [Samples.stat_gap_1; Samples.stat_gap_2]
  = ([Samples.stat_gap_1; Samples.stat_gap_2], 0%nat).
Proof. vm_compute. reflexivity. Qed.

(** The same two rows with an [avg_max_temp]: the row with the smaller
    [id] is deleted. *)
Example stats_full_group_deduplicated :
  remove_duplicates [Samples.stat_a_1; Samples.stat_a_2]
  = ([Samples.stat_a_2], 1%nat).
Proof. vm_compute. reflexivity. Qed.

(** C4, as stated, fails: two rows of one year and station with different
    averages are both left in the table. *)
Lemma stats_two_rows_for_one_year_and_station :
  fst (remove_duplicates [Samples.stat_a_2; Samples.stat_b_3])
  = [Samples.stat_a_2; Samples.stat_b_3]
  /\ year Samples.stat_a_2 = year Samples.stat_b_3
  /\ weather_station_id Samples.stat_a_2 = weather_station_id Samples.stat_b_3
  /\ Samples.stat_a_2 <> Samples.stat_b_3.
Proof.
  split; [vm_compute; reflexivity|].
  split; [reflexivity|]. split; [reflexivity|]. discriminate.
Qed.

End StatsDedup.

(** C7: a second run of [load_data.remove_duplicates] right after a first
    one deletes no record and leaves the table as it is, and so does a
    second run of [calculate_statistics.remove_duplicates], from every
    table. *)
Theorem remove_duplicates_twice
        (raw : list LoadData.WeatherRecord)
        (stats : list CalculateStatistics.WeatherStats) :
  LoadData.remove_duplicates (fst (LoadData.remove_duplicates raw))
  = (fst (LoadData.remove_duplicates raw), 0%nat)
  /\
  CalculateStatistics.remove_duplicates
    (fst (CalculateStatistics.remove_duplicates stats))
  = (fst (CalculateStatistics.remove_duplicates stats), 0%nat).
Proof.
  split; [apply raw_run_twice | apply stats_run_twice].
Qed.

(** * The loop body of [load_data_from_files] *)

Section Parser.

Import LoadData.

Lemma numeric_stores (columns : list string) (i : nat) (f : string)
      (v : option Z) :
  nth_error columns i = Some f -> stores f v -> numeric columns i = inr v.
Proof.
  intros Hnth Hst. unfold numeric, item. rewrite Hnth. simpl.
  destruct Hst as [|f n Hne Hint].
  - reflexivity.
  - destruct (String.eqb_spec f "-9999") as [->|_]; [contradiction|].
    simpl. now rewrite Hint.
Qed.

Lemma numeric_rejects (columns : list string) (i : nat) (f : string) :
  nth_error columns i = Some f -> f <> "-9999" -> PyStr.int f = None ->
  numeric columns i = inl ValueError.
Proof.
  intros Hnth Hne Hint. unfold numeric, item. rewrite Hnth. simpl.
  destruct (String.eqb_spec f "-9999") as [->|_]; [contradiction|].
  simpl. now rewrite Hint.
Qed.

Lemma numeric_missing (columns : list string) (i : nat) :
  nth_error columns i = None -> numeric columns i = inl IndexError.
Proof. intros Hnth. unfold numeric, item. now rewrite Hnth. Qed.

Lemma parse_line_inr (line station : string) (now : Z) (r : WeatherRecord) :
  parse_line line station now = inr r ->
  exists d x y z,
    item (columns_of line) 0 = inr d /\
    numeric (columns_of line) 1 = inr x /\
    numeric (columns_of line) 2 = inr y /\
    numeric (columns_of line) 3 = inr z /\
    r = mkWeatherRecord d x y z station now.
Proof.
  unfold parse_line.
  destruct (item (columns_of line) 0) as [e|d]; [discriminate|].
  destruct (numeric (columns_of line) 1) as [e|x]; [discriminate|].
  destruct (numeric (columns_of line) 2) as [e|y]; [discriminate|].
  destruct (numeric (columns_of line) 3) as [e|z]; [discriminate|].
  simpl. intros H. inversion H. exists d, x, y, z. auto.
Qed.

Lemma parse_line_inl (line station station' : string) (now now' : Z)
      (e : Exn) :
  parse_line line station now = inl e ->
  parse_line line station' now' = inl e.
Proof.
  unfold parse_line.
  destruct (item (columns_of line) 0) as [e0|d]; [exact (fun H => H)|].
  destruct (numeric (columns_of line) 1) as [e1|x]; [exact (fun H => H)|].
  destruct (numeric (columns_of line) 2) as [e2|y]; [exact (fun H => H)|].
  destruct (numeric (columns_of line) 3) as [e3|z]; [exact (fun H => H)|].
  discriminate.
Qed.

Lemma parse_line_first_four (line station : string) (now : Z)
      (d a b c : string) (extra : list string) (x y z : option Z) :
  columns_of line = d :: a :: b :: c :: extra ->
  stores a x -> stores b y -> stores c z ->
  parse_line line station now = inr (mkWeatherRecord d x y z station now).
Proof.
  intros Hcols Ha Hb Hc. unfold parse_line. rewrite Hcols.
  set (columns := d :: a :: b :: c :: extra).
  rewrite (numeric_stores columns 1 a x eq_refl Ha).
  rewrite (numeric_stores columns 2 b y eq_refl Hb).
  rewrite (numeric_stores columns 3 c z eq_refl Hc).
  reflexivity.
Qed.

(** C5, as stated, fails: the text [-09999] parses to the integer -9999,
    and the record keeps that integer, not NULL. *)
Lemma sentinel_value_is_stored :
  columns_of Samples.padded_line = ["20200101"; "-09999"; "-50"; "0"]
  /\ PyStr.int "-09999" = Some (-9999)
  /\ parse_line Samples.padded_line "USW00094728" 7
     = inr (mkWeatherRecord "20200101" (Some (-9999)) (Some (-50)) (Some 0)
              "USW00094728" 7).
Proof. repeat split. Qed.

(** C5, amended: for a line that strips and splits into exactly four
    columns, each numeric column whose text is exactly [-9999] is stored
    as NULL and each other numeric column that [int()] accepts is stored
    as the integer [int()] returns; the date is the first column and the
    station and the timestamp are the ones supplied. *)
Theorem parse_line_four_columns (line station : string) (now : Z)
        (d a b c : string) (x y z : option Z) :
  columns_of line = [d; a; b; c] ->
  stores a x -> stores b y -> stores c z ->
  parse_line line station now = inr (mkWeatherRecord d x y z station now).
Proof. exact (parse_line_first_four line station now d a b c [] x y z). Qed.

Lemma parse_line_four_columns_witness :
  columns_of (Samples.good_line ++ String "010" "")
  = ["20200101"; "100"; "-50"; "0"]
  /\ parse_line (Samples.good_line ++ String "010" "") "USW00094728" 3
     = inr (mkWeatherRecord "20200101" (Some 100) (Some (-50)) (Some 0)
              "USW00094728" 3).
Proof.
  split; [reflexivity|].
  apply (parse_line_four_columns
           (Samples.good_line ++ String "010" "") "USW00094728" 3
           "20200101" "100" "-50" "0").
  - reflexivity.
  - apply stores_int; [discriminate | reflexivity].
  - apply stores_int; [discriminate | reflexivity].
  - apply stores_int; [discriminate | reflexivity].
Defined.

Lemma numeric_cases (columns : list string) (i : nat) :
  (nth_error columns i = None /\ numeric columns i = inl IndexError)
  \/ (exists f, nth_error columns i = Some f /\ f <> "-9999"
                /\ PyStr.int f = None /\ numeric columns i = inl ValueError)
  \/ (exists f v, nth_error columns i = Some f /\ stores f v
                  /\ numeric columns i = inr v).
Proof.
  destruct (nth_error columns i) as [f|] eqn:Hnth.
  - right. destruct (String.eqb_spec f "-9999") as [->|Hne].
    + right. exists "-9999", None. split; [reflexivity|].
      split; [constructor|].
      exact (numeric_stores columns i "-9999" None Hnth stores_null).
    + destruct (PyStr.int f) as [n|] eqn:Hint.
      * right. exists f, (Some n). split; [reflexivity|].
        split; [now constructor|].
        apply (numeric_stores columns i f (Some n) Hnth). now constructor.
      * left. exists f. repeat split; try assumption.
        exact (numeric_rejects columns i f Hnth Hne Hint).
  - left. split; [reflexivity | now apply numeric_missing].
Qed.

Lemma item_cases (columns : list string) (i : nat) :
  item columns i = inl IndexError \/ exists c, item columns i = inr c.
Proof. unfold item. destruct (nth_error columns i); eauto. Qed.

Lemma stores_accepts (f : string) (v : option Z) :
  stores f v -> f <> "-9999" -> PyStr.int f = None -> False.
Proof. intros [|g n Hne Hint] Hne' Hnone; congruence. Qed.

(** C6, as stated, fails twice over.  The fields are those of the
    stripped line: in the line made of a tab, [2020-01-01], [100], [-50]
    and [0] the second tab-separated field is not an integer, yet the line
    is parsed without error (the leading tab is stripped and the date is
    [2020-01-01]).  And the exceptions of the loop body are the built-in
    [IndexError] and [ValueError]. *)
Lemma non_integer_field_is_parsed :
  PyStr.split PyStr.TAB Samples.leading_tab_line
  = [""; "2020-01-01"; "100"; "-50"; "0"]
  /\ "2020-01-01" <> "-9999"
  /\ PyStr.int "2020-01-01" = None
  /\ parse_line Samples.leading_tab_line "USW00094728" 7
     = inr (mkWeatherRecord "2020-01-01" (Some 100) (Some (-50)) (Some 0)
              "USW00094728" 7)
  /\ parse_line Samples.short_line "USW00094728" 7 = inl IndexError
  /\ parse_line Samples.value_error_line "USW00094728" 7 = inl ValueError.
Proof. repeat split. discriminate. Qed.

(** C6, amended: a line that, once stripped, has fewer than four columns,
    or has a second, third or fourth column that is neither [-9999] nor
    accepted by [int()], makes the loop body raise whatever the station
    and the clock, and no record is built.  The exception is the one of
    the first of these three columns that cannot be read: [IndexError]
    when that column is missing, [ValueError] when it is there and
    [int()] rejects it. *)
Theorem parse_line_raises (line : string) :
  (List.length (columns_of line) < 4)%nat \/
  (exists i f, (1 <= i <= 3)%nat /\ nth_error (columns_of line) i = Some f /\
               f <> "-9999" /\ PyStr.int f = None) ->
  exists i e,
    (1 <= i <= 3)%nat
    /\ (forall j, (1 <= j < i)%nat ->
                  exists f v, nth_error (columns_of line) j = Some f
                              /\ stores f v)
    /\ ((nth_error (columns_of line) i = None /\ e = IndexError)
        \/ (exists f, nth_error (columns_of line) i = Some f
                      /\ f <> "-9999" /\ PyStr.int f = None
                      /\ e = ValueError))
    /\ forall station now, parse_line line station now = inl e.
Proof.
  intros Hbad. unfold parse_line. cbv zeta.
  set (columns := columns_of line) in *.
  destruct (numeric_cases columns 1)
    as [[Hn1 He1] | [(f1 & Hn1 & Hne1 & Hi1 & He1) | (f1 & v1 & Hn1 & Hs1 & He1)]].
  { exists 1%nat, IndexError. split; [lia|]. split; [intros j Hj; lia|].
    split; [now left|]. intros station now.
    destruct (item_cases columns 0) as [->|(c & ->)]; [reflexivity|].
    simpl. now rewrite He1. }
  { exists 1%nat, ValueError. split; [lia|]. split; [intros j Hj; lia|].
    split; [right; exists f1; auto|]. intros station now.
    destruct columns as [|d rest]; [discriminate|]. simpl. now rewrite He1. }
  assert (Hitem : exists d, item columns 0 = inr d).
  { destruct columns as [|d rest]; [discriminate|]. now exists d. }
  destruct Hitem as (d & Hd).
  destruct (numeric_cases columns 2)
    as [[Hn2 He2] | [(f2 & Hn2 & Hne2 & Hi2 & He2) | (f2 & v2 & Hn2 & Hs2 & He2)]].
  { exists 2%nat, IndexError. split; [lia|].
    split; [intros j Hj; assert (j = 1%nat) as -> by lia; eauto|].
    split; [now left|]. intros station now.
    rewrite Hd. simpl. rewrite He1. simpl. now rewrite He2. }
  { exists 2%nat, ValueError. split; [lia|].
    split; [intros j Hj; assert (j = 1%nat) as -> by lia; eauto|].
    split; [right; exists f2; auto|]. intros station now.
    rewrite Hd. simpl. rewrite He1. simpl. now rewrite He2. }
  destruct (numeric_cases columns 3)
    as [[Hn3 He3] | [(f3 & Hn3 & Hne3 & Hi3 & He3) | (f3 & v3 & Hn3 & Hs3 & He3)]].
  { exists 3%nat, IndexError. split; [lia|]. split.
    - intros j Hj. assert (j = 1%nat \/ j = 2%nat) as [-> | ->] by lia; eauto.
    - split; [now left|]. intros station now.
      rewrite Hd. simpl. rewrite He1. simpl. rewrite He2. simpl.
      now rewrite He3. }
  { exists 3%nat, ValueError. split; [lia|]. split.
    - intros j Hj. assert (j = 1%nat \/ j = 2%nat) as [-> | ->] by lia; eauto.
    - split; [right; exists f3; auto|]. intros station now.
      rewrite Hd. simpl. rewrite He1. simpl. rewrite He2. simpl.
      now rewrite He3. }
  exfalso. destruct Hbad as [Hlen | (i & f & Hi & Hnth & Hne & Hint)].
  - assert (Hnone : nth_error columns 3 = None)
      by (apply nth_error_None; lia).
    congruence.
  - assert (Hcase : i = 1%nat \/ i = 2%nat \/ i = 3%nat) by lia.
    destruct Hcase as [-> | [-> | ->]].
    + rewrite Hn1 in Hnth. inversion Hnth; subst.
      exact (stores_accepts f v1 Hs1 Hne Hint).
    + rewrite Hn2 in Hnth. inversion Hnth; subst.
      exact (stores_accepts f v2 Hs2 Hne Hint).
    + rewrite Hn3 in Hnth. inversion Hnth; subst.
      exact (stores_accepts f v3 Hs3 Hne Hint).
Qed.

Lemma parse_line_raises_witness :
  (exists i f, (1 <= i <= 3)%nat
               /\ nth_error (columns_of Samples.value_error_line) i = Some f
               /\ f <> "-9999" /\ PyStr.int f = None)
  /\
  exists i e,
    (1 <= i <= 3)%nat
    /\ (forall j, (1 <= j < i)%nat ->
                  exists f v,
                    nth_error (columns_of Samples.value_error_line) j = Some f
                    /\ stores f v)
    /\ ((nth_error (columns_of Samples.value_error_line) i = None
         /\ e = IndexError)
        \/ (exists f, nth_error (columns_of Samples.value_error_line) i
                      = Some f
                      /\ f <> "-9999" /\ PyStr.int f = None
                      /\ e = ValueError))
    /\ forall station now,
         parse_line Samples.value_error_line station now = inl e.
Proof.
  assert (Hbad : exists i f,
             (1 <= i <= 3)%nat
             /\ nth_error (columns_of Samples.value_error_line) i = Some f
             /\ f <> "-9999" /\ PyStr.int f = None).
  { exists 1%nat, "abc". split; [lia|]. split; [reflexivity|].
    split; [discriminate | reflexivity]. }
  split; [exact Hbad|].
  exact (parse_line_raises Samples.value_error_line (or_intror Hbad)).
Defined.




End Parser.

(** * [load_data_from_files] *)

Section IngestionFacts.

Import LoadData.
Variable utcnow : nat -> Z.

Lemma read_lines_table (station : string) (lines : list string)
      (s : Session) :
  table (final_state (read_lines utcnow station lines s)) = table s.
Proof.
  revert s; induction lines as [|line rest IH]; intros s; simpl.
  - reflexivity.
  - destruct (parse_line line station (utcnow (record_count s))).
    + reflexivity.
    + now rewrite IH.
Qed.

Lemma read_lines_malformed (station : string) (lines : list string)
      (s : Session) (line : string) :
  In line lines -> malformed line ->
  exists e s', read_lines utcnow station lines s = Raised e s'
               /\ table s' = table s.
Proof.
  intros Hin [e Hbad]. revert s.
  induction lines as [|l rest IH]; intros s; [contradiction|].
  simpl. destruct (parse_line l station (utcnow (record_count s))) eqn:E.
  - eauto.
  - destruct Hin as [->|Hin].
    + rewrite Hbad in E. discriminate.
    + destruct (IH Hin (add s w)) as (e' & s' & Hr & Ht). eauto.
Qed.

Lemma load_files_app (before rest : list (string * list string))
      (s0 s1 : Session) :
  load_files utcnow before s0 = Finished s1 ->
  load_files utcnow (before ++ rest) s0 = load_files utcnow rest s1.
Proof.
  revert s0; induction before as [|[name lines] before IH]; intros s0; simpl.
  - intros H. now inversion H.
  - destruct (PyStr.endswith name ".txt").
    + destruct (read_lines utcnow (PyStr.splitext_root name) lines s0).
      * apply IH.
      * discriminate.
    + apply IH.
Qed.

(** A file without a malformed line is committed whole, after its last
    line. *)
Lemma load_files_good_file (name : string) (lines : list string)
      (rest : list (string * list string)) (s s' : Session) :
  PyStr.endswith name ".txt" = true ->
  read_lines utcnow (PyStr.splitext_root name) lines s = Finished s' ->
  load_files utcnow ((name, lines) :: rest) s
  = load_files utcnow rest
      (mkSession (table s ++ pending s') [] (record_count s')).
Proof.
  intros Hext Hread. simpl. rewrite Hext, Hread. unfold commit.
  pose proof (read_lines_table (PyStr.splitext_root name) lines s) as Ht.
  rewrite Hread in Ht. simpl in Ht. now rewrite Ht.
Qed.

(** A file with a malformed line is read up to its first malformed
    line, and the exception of that line ends the loop. *)
Lemma read_lines_first_malformed (station : string) (lines : list string)
      (line : string) :
  In line lines -> malformed line ->
  forall s,
  exists good bad rest e s',
    lines = good ++ bad :: rest
    /\ (forall l, In l good -> ~ malformed l)
    /\ (forall station' now, parse_line bad station' now = inl e)
    /\ read_lines utcnow station lines s = Raised e s'
    /\ table s' = table s.
Proof.
  intros Hin Hbad.
  induction lines as [|l tl IH]; intros s; [contradiction|].
  cbn [read_lines].
  destruct (parse_line l station (utcnow (record_count s))) as [e0|r] eqn:Ep.
  - exists [], l, tl, e0, s. split; [reflexivity|].
    split; [intros l' []|]. split; [|split; reflexivity].
    intros station' now.
    exact (parse_line_inl l station station' _ now e0 Ep).
  - assert (Hgood : ~ malformed l).
    { intros [e He]. rewrite He in Ep. discriminate. }
    destruct Hin as [->|Hin]; [contradiction|].
    destruct (IH Hin (add s r))
      as (good & bad & rest & e & s' & Hsplit & Hall & Hexn & Hrun & Ht).
    exists (l :: good), bad, rest, e, s'. split; [now rewrite Hsplit|].
    split; [intros l' [<-|Hl']; auto|]. split; [exact Hexn|].
    split; [exact Hrun | exact Ht].
Qed.

End IngestionFacts.

(** C8, as stated, fails: the malformed line of [a.txt] ends the run, and
    the records of its well-formed sibling [b.txt], listed after it, never
    reach the table. *)
Lemma malformed_line_stops_the_siblings :
  LoadData.load_data_from_files
    Samples.clock [("a.txt", ["oops"]); ("b.txt", [Samples.good_line])] []
  = Raised IndexError (LoadData.mkSession [] [] 0)
  /\
  LoadData.load_data_from_files
    Samples.clock [("b.txt", [Samples.good_line])] []
  = Finished (LoadData.mkSession [Samples.good_record] [] 1).
Proof. split; reflexivity. Qed.

(** C8, amended: a malformed line inside a [.txt] file ends the whole run
    with the exception of the first malformed line of that file.  The
    table then holds exactly what the entries listed before the file had
    committed: no record of the file itself is committed, and the entries
    listed after it are not read. *)
Theorem malformed_line_aborts_run
        (utcnow : nat -> Z)
        (before after : list (string * list string))
        (name line : string) (lines : list string)
        (s0 s1 : LoadData.Session) :
  LoadData.load_files utcnow before s0 = Finished s1 ->
  PyStr.endswith name ".txt" = true ->
  In line lines ->
  LoadData.malformed line ->
  exists good bad rest e s',
    lines = good ++ bad :: rest
    /\ (forall l, In l good -> ~ LoadData.malformed l)
    /\ (forall station now, LoadData.parse_line bad station now = inl e)
    /\ LoadData.load_files utcnow (before ++ (name, lines) :: after) s0
       = Raised e s'
    /\ LoadData.table s' = LoadData.table s1.
Proof.
  intros Hbefore Hext Hin Hbad.
  rewrite (load_files_app utcnow before _ s0 s1 Hbefore). simpl.
  rewrite Hext.
  destruct (read_lines_first_malformed utcnow (PyStr.splitext_root name)
              lines line Hin Hbad s1)
    as (good & bad & rest & e & s' & Hsplit & Hall & Hexn & Hr & Ht).
  rewrite Hr. exists good, bad, rest, e, s'. auto.
Qed.

Lemma malformed_line_aborts_run_witness :
  In Samples.short_line
     [Samples.good_line; Samples.value_error_line; Samples.short_line]
  /\ LoadData.malformed Samples.short_line
  /\
  exists good bad rest e s',
    [Samples.good_line; Samples.value_error_line; Samples.short_line]
    = good ++ bad :: rest
    /\ (forall l, In l good -> ~ LoadData.malformed l)
    /\ (forall station now, LoadData.parse_line bad station now = inl e)
    /\ LoadData.load_files Samples.clock
         ([("b.txt", [Samples.good_line])]
            ++ ("a.txt", [Samples.good_line; Samples.value_error_line;
                          Samples.short_line])
            :: [("c.txt", [Samples.good_line])])
         (LoadData.mkSession [] [] 0)
       = Raised e s'
    /\ LoadData.table s'
       = LoadData.table (LoadData.mkSession [Samples.good_record] [] 1).
Proof.
  assert (Hbad : LoadData.malformed Samples.short_line)
    by (exists IndexError; intros station now; reflexivity).
  split; [right; right; left; reflexivity|]. split; [exact Hbad|].
  apply (malformed_line_aborts_run Samples.clock
           [("b.txt", [Samples.good_line])] [("c.txt", [Samples.good_line])]
           "a.txt" Samples.short_line
           [Samples.good_line; Samples.value_error_line; Samples.short_line]).
  - reflexivity.
  - reflexivity.
  - right. right. left. reflexivity.
  - exact Hbad.
Defined.

(** The file of the witness: its first malformed line is the one with
    [abc], so the run ends with [ValueError], not with the [IndexError]
    of the short line after it. *)
Example first_malformed_line_decides :
  LoadData.load_files Samples.clock
    [("a.txt", [Samples.good_line; Samples.value_error_line;
                Samples.short_line])]
    (LoadData.mkSession [] [] 0)
  = Raised ValueError
      (LoadData.mkSession []
         [LoadData.mkWeatherRecord "20200101" (Some 100) (Some (-50))
                                   (Some 0) "a" 0] 1).
Proof. reflexivity. Qed.

(** * [calculate_statistics] *)

Section Aggregation.

Import CalculateStatistics.

Lemma round2_Q_comp (x y : Q) : (x == y)%Q -> Sql.round2_Q x = Sql.round2_Q y.
Proof.
  intros H. unfold Sql.round2_Q. cbv zeta.
  assert (H100 : (x * 100 == y * 100)%Q) by now rewrite H.
  rewrite (Qleb_comp 0%Q 0%Q (Qeq_refl 0%Q) _ _ H100).
  rewrite (Qfloor_comp (x * 100 + (1 # 2)) (y * 100 + (1 # 2)))
    by now rewrite H100.
  rewrite (Qfloor_comp (- (x * 100) + (1 # 2)) (- (y * 100) + (1 # 2)))
    by now rewrite H100.
  reflexivity.
Qed.

Lemma non_null_div {R : Type} (f : R -> option Z) (d : Q) (ms : list R) :
  Sql.non_null (map (fun r => Sql.div_float (f r) d) ms)
  = map (fun v => (inject_Z v / d)%Q) (Sql.non_null (map f ms)).
Proof.
  induction ms as [|r ms IH]; simpl; [reflexivity|].
  destruct (f r); simpl; now rewrite IH.
Qed.

Lemma total_div (d : Q) (xs : list Z) :
  (Sql.total (map (fun v => inject_Z v / d) xs)
   == inject_Z (Spec.sum xs) / d)%Q.
Proof.
  induction xs as [|x xs IH]; simpl.
  - unfold Qdiv. ring.
  - rewrite IH, inject_Z_plus. unfold Qdiv. ring.
Qed.

Lemma avg_cons (x : Z) (xs : list Z) :
  Sql.round2_Q
    (Sql.total (map (fun v => inject_Z v / 10)%Q (x :: xs))
     / inject_Z (Z.of_nat
         (List.length (map (fun v => inject_Z v / 10)%Q (x :: xs)))))
  = Sql.round2_Q (Spec.mean (x :: xs) / 10).
Proof.
  apply round2_Q_comp.
  rewrite length_map, total_div. unfold Spec.mean, Qdiv. ring.
Qed.

Lemma sum_cons (x : Z) (xs : list Z) :
  Sql.round2_Q (Sql.total (map (fun v => inject_Z v / 100)%Q (x :: xs)))
  = Sql.round2_Q (inject_Z (Spec.sum (x :: xs)) / 100).
Proof. apply round2_Q_comp, total_div. Qed.

(** [round(avg(column / 10.0), 2)] is the spec's
    round(mean(non-null values) / 10.0, 2). *)
Lemma avg_refines {R : Type} (f : R -> option Z) (ms : list R) :
  Sql.round2 (Sql.agg_avg (map (fun r => Sql.div_float (f r) 10) ms))
  = Spec.avg_temp (map f ms).
Proof.
  unfold Sql.agg_avg, Spec.avg_temp. rewrite non_null_div.
  destruct (Sql.non_null (map f ms)) as [|v vs]; [reflexivity|].
  unfold Sql.round2, option_map. cbn [map]. f_equal. apply (avg_cons v vs).
Qed.

(** [round(sum(column / 100.0), 2)] is the spec's
    round(sum(non-null values) / 100.0, 2). *)
Lemma sum_refines {R : Type} (f : R -> option Z) (ms : list R) :
  Sql.round2 (Sql.agg_sum (map (fun r => Sql.div_float (f r) 100) ms))
  = Spec.total_precipitation (map f ms).
Proof.
  unfold Sql.agg_sum, Spec.total_precipitation. rewrite non_null_div.
  destruct (Sql.non_null (map f ms)) as [|v vs]; [reflexivity|].
  unfold Sql.round2, option_map. cbn [map]. f_equal. apply (sum_cons v vs).
Qed.

Lemma bulk_save_numbered (us : list Unsaved) (db : StatsDb) :
  bulk_save_objects db us
  = mkStatsDb (rows db ++ numbered (next_id db) us)
              (next_id db + Z.of_nat (List.length us)).
Proof.
  unfold bulk_save_objects. revert db.
  induction us as [|u us IH]; intros db.
  - destruct db as [rs n]. simpl. now rewrite app_nil_r, Z.add_0_r.
  - cbn [fold_left]. rewrite IH. unfold insert. cbn [rows next_id numbered].
    rewrite <- app_assoc. cbn [app List.length]. f_equal. lia.
Qed.

Lemma length_numbered (us : list Unsaved) (i : Z) :
  List.length (numbered i us) = List.length us.
Proof.
  revert i; induction us as [|u us IH]; intros i; simpl; [reflexivity|].
  now rewrite IH.
Qed.

(** Saving by batches of [batch_size] stores the same rows as saving them
    all at once, as long as every year converts. *)
Lemma save_loop_finishes (recs : list StatRow) :
  Forall (fun record => PyStr.int (r_year record) <> None) recs ->
  forall batch db,
  exists us, Forall2 built_from recs us
             /\ save_loop recs batch db
                = Finished (bulk_save_objects db (batch ++ us)).
Proof.
  induction 1 as [|record rest Hyear _ IH]; intros batch db.
  - exists []. split; [constructor|]. rewrite app_nil_r. simpl.
    now destruct batch.
  - cbn [save_loop].
    destruct (PyStr.int (r_year record)) as [y|] eqn:Ey; [|contradiction].
    set (u := mkUnsaved y (r_weather_station_id record)
                        (r_avg_max_temp record) (r_avg_min_temp record)
                        (r_total_precipitation record)).
    assert (Hu : built_from record u) by (unfold built_from; simpl; auto).
    destruct (batch_size <=? List.length (batch ++ [u]))%nat.
    + destruct (IH [] (bulk_save_objects db (batch ++ [u])))
        as (us & Hus & Hrun).
      exists (u :: us). split; [now constructor|].
      rewrite Hrun. f_equal. unfold bulk_save_objects. simpl.
      rewrite <- fold_left_app, <- app_assoc. reflexivity.
    + destruct (IH (batch ++ [u]) db) as (us & Hus & Hrun).
      exists (u :: us). split; [now constructor|].
      rewrite Hrun, <- app_assoc. reflexivity.
Qed.

Lemma numbered_yearly_stats (tbl : list LoadData.WeatherRecord)
      (keys : list GroupKey) :
  forall us i,
    Forall2 built_from (map (stat_row tbl) keys) us ->
    Forall2 (Spec.yearly_stat tbl) keys (numbered i us).
Proof.
  induction keys as [|k keys IH]; intros us i H; inversion H; subst.
  - constructor.
  - cbn [numbered]. constructor; [|now apply IH].
    match goal with Hb : built_from _ _ |- _ =>
      destruct Hb as (Hy & Hs & Hmx & Hmn & Htp) end.
    unfold Spec.yearly_stat, with_id. cbn.
    cbn in Hy, Hs, Hmx, Hmn, Htp.
    rewrite Hmx, Hmn, Htp, avg_refines, avg_refines, sum_refines.
    auto.
Qed.

Lemma group_keys_iff (tbl : list LoadData.WeatherRecord) (k : GroupKey) :
  In k (Sql.group_keys GroupKey_dec group_key tbl) <->
  exists r, In r tbl /\ group_key r = k.
Proof.
  unfold Sql.group_keys. rewrite nodup_In, in_map_iff.
  split; intros (r & H1 & H2); exists r; tauto.
Qed.

(** In exact arithmetic: when the first four characters of every stored
    date are a year [int()] accepts, one run of [calculate_statistics]
    finishes and adds to the stats table exactly one row for each group
    (year prefix, station) of the stored Observations, and the formulas
    of the query agree with round(mean of the non-null values / 10.0, 2)
    and round(sum of the non-null values / 100.0, 2).  This says nothing
    of the digits the store computes in floating point. *)
Theorem calculate_statistics_one_row_per_group
        (tbl : list LoadData.WeatherRecord) (db : StatsDb) :
  (forall r, In r tbl ->
             PyStr.int (PyStr.prefix 4 (LoadData.date r)) <> None) ->
  NoDup (Sql.group_keys GroupKey_dec group_key tbl)
  /\ (forall k, In k (Sql.group_keys GroupKey_dec group_key tbl) <->
                exists r, In r tbl /\ group_key r = k)
  /\ exists new_rows,
       calculate_statistics tbl db
       = Finished (mkStatsDb (rows db ++ new_rows)
                     (next_id db + Z.of_nat (List.length new_rows)))
       /\ Forall2 (Spec.yearly_stat tbl)
                  (Sql.group_keys GroupKey_dec group_key tbl) new_rows.
Proof.
  intros Hyears. split; [apply NoDup_nodup|]. split; [apply group_keys_iff|].
  assert (Hrecs : Forall (fun record => PyStr.int (r_year record) <> None)
                         (records tbl)).
  { apply Forall_forall. intros record Hin. unfold records in Hin.
    apply in_map_iff in Hin. destruct Hin as (k & <- & Hk).
    apply group_keys_iff in Hk. destruct Hk as (r & Hr & <-).
    apply (Hyears r Hr). }
  destruct (save_loop_finishes (records tbl) Hrecs [] db)
    as (us & Hus & Hrun).
  exists (numbered (next_id db) us). split.
  - unfold calculate_statistics. rewrite Hrun. cbn [app].
    now rewrite bulk_save_numbered, length_numbered.
  - now apply numbered_yearly_stats.
Qed.

Lemma calculate_statistics_one_row_per_group_witness :
  NoDup (Sql.group_keys GroupKey_dec group_key Samples.year_2020)
  /\ (forall k, In k (Sql.group_keys GroupKey_dec group_key Samples.year_2020)
                <-> exists r, In r Samples.year_2020 /\ group_key r = k)
  /\ exists new_rows,
       calculate_statistics Samples.year_2020 (mkStatsDb [] 1)
       = Finished (mkStatsDb (rows (mkStatsDb [] 1) ++ new_rows)
                     (next_id (mkStatsDb [] 1)
                      + Z.of_nat (List.length new_rows)))
       /\ Forall2 (Spec.yearly_stat Samples.year_2020)
                  (Sql.group_keys GroupKey_dec group_key Samples.year_2020)
                  new_rows.
Proof.
  apply (calculate_statistics_one_row_per_group
           Samples.year_2020 (mkStatsDb [] 1)).
  intros r [<- | [<- | [<- | []]]]; vm_compute; discriminate.
Defined.

(** The figures of the specification: maxima 100 and 200 average to
    15.00, precipitation 50 and 150 totals 2.00, and a column without any
    value gives NULL. *)
Example calculate_statistics_year_2020 :
  calculate_statistics Samples.year_2020 (mkStatsDb [] 1)
  = Finished (mkStatsDb
                [mkWeatherStats 1 2020 "USW00094728" (Some 1500) None
                                (Some 200)]
                2).
Proof. vm_compute. reflexivity. Qed.

End Aggregation.

(** * The runtime operations on a few inputs *)

Section Examples.

Example int_examples :
  map PyStr.int ["12"; " 12 "; "+7"; "-09999"; "1_000"; "1__0"; "_1"; "";
                 "-"; "- 1"; "12a"]
  = [Some 12; Some 12; Some 7; Some (-9999); Some 1000; None; None; None;
     None; None; None].
Proof. reflexivity. Qed.

Example splitext_examples :
  map PyStr.splitext_root ["USC00110072.txt"; "a.b.txt"; ".txt"; "a..txt"]
  = ["USC00110072"; "a.b"; ".txt"; "a."].
Proof. reflexivity. Qed.

Example parse_line_example :
  LoadData.parse_line (tab_join ["20200101"; "100"; "-50"; "0"] ++ String "010" "")
                      "USW00094728" 5
  = inr (LoadData.mkWeatherRecord "20200101" (Some 100) (Some (-50)) (Some 0)
           "USW00094728" 5).
Proof. reflexivity. Qed.

Example strip_split_examples :
  map LoadData.columns_of
      [(" a" ++ String PyStr.TAB "b" ++ String "010" "")%string; "";
       String PyStr.TAB "1"; ("1" ++ String PyStr.TAB "")%string]
  = [["a"; "b"]; [""]; ["1"]; ["1"]].
Proof. reflexivity. Qed.

End Examples.

(** * More on the loop body of [load_data_from_files] *)

Section Columns.

Import LoadData.

Lemma split_cons (sep : ascii) (s : string) :
  exists f fs, PyStr.split sep s = f :: fs.
Proof.
  destruct s as [|c s]; simpl; [eauto|].
  destruct (Ascii.eqb c sep); [eauto|].
  destruct (PyStr.split sep s); eauto.
Qed.

Lemma concat_two (sep x f : string) (fs : list string) :
  String.concat sep (x :: f :: fs) = (x ++ sep ++ String.concat sep (f :: fs))%string.
Proof. reflexivity. Qed.

Lemma concat_split (sep : ascii) (s : string) :
  String.concat (String sep "") (PyStr.split sep s) = s.
Proof.
  induction s as [|c s IH]; [reflexivity|].
  destruct (split_cons sep s) as (f & fs & Hs).
  cbn [PyStr.split]. rewrite Hs in *.
  destruct (Ascii.eqb_spec c sep) as [->|_].
  - rewrite concat_two, IH. reflexivity.
  - destruct fs as [|g fs].
    + simpl in *. now rewrite IH.
    + rewrite concat_two. rewrite concat_two in IH.
      rewrite <- IH. reflexivity.
Qed.

Lemma split_separator_free (sep : ascii) (s f : string) :
  In f (PyStr.split sep s) -> ~ In sep (list_ascii_of_string f).
Proof.
  revert f; induction s as [|c s IH]; intros f; cbn [PyStr.split].
  - intros [<-|[]] [].
  - destruct (split_cons sep s) as (g & gs & Hs). rewrite Hs in *.
    destruct (Ascii.eqb_spec c sep) as [->|Hne].
    + intros [<-|Hin]; [intros [] | now apply IH].
    + intros [<-|Hin].
      * cbn [list_ascii_of_string]. intros [Heq|Hin].
        -- now apply Hne.
        -- apply (IH g); [now left | assumption].
      * apply IH. now right.
Qed.

(** X1: the columns of a line, put together again with tabs between them,
    are the stripped line: [split] loses no character and adds none. *)
Theorem columns_round_trip (line : string) :
  tab_join (columns_of line) = PyStr.strip line.
Proof. apply concat_split. Qed.

(** X2: no column of a line holds a tab. *)
Theorem columns_hold_no_tab (line f : string) :
  In f (columns_of line) -> ~ In PyStr.TAB (list_ascii_of_string f).
Proof. apply split_separator_free. Qed.

Lemma columns_hold_no_tab_witness :
  In "100" (columns_of Samples.good_line)
  /\ ~ In PyStr.TAB (list_ascii_of_string "100").
Proof.
  assert (Hin : In "100" (columns_of Samples.good_line))
    by (right; left; reflexivity).
  split; [exact Hin|].
  exact (columns_hold_no_tab Samples.good_line "100" Hin).
Defined.

Lemma lstrip_all_space (sp : ascii -> bool) (s : string) :
  (forall c, In c (list_ascii_of_string s) -> sp c = true) ->
  PyStr.lstrip_with sp s = "".
Proof.
  induction s as [|c s IH]; intros Hall; [reflexivity|].
  cbn [PyStr.lstrip_with]. rewrite (Hall c (or_introl eq_refl)).
  apply IH. intros c' Hc'. apply Hall. now right.
Qed.

(** X3: a line of white space only (an empty line, a lone newline) has a
    single empty column, so the loop body raises [IndexError] on it. *)
Theorem blank_line_raises (line station : string) (now : Z) :
  Script.blank line ->
  columns_of line = [""] /\ parse_line line station now = inl IndexError.
Proof.
  intros Hblank.
  assert (Hcols : columns_of line = [""]).
  { unfold columns_of, PyStr.strip.
    now rewrite (lstrip_all_space PyStr.is_space line Hblank). }
  split; [exact Hcols|]. unfold parse_line. now rewrite Hcols.
Qed.

Lemma blank_line_raises_witness :
  Script.blank (String "010" "")
  /\ columns_of (String "010" "") = [""]
  /\ parse_line (String "010" "") "USW00094728" 4 = inl IndexError.
Proof.
  assert (Hblank : Script.blank (String "010" ""))
    by (intros c [<-|[]]; reflexivity).
  split; [exact Hblank|].
  exact (blank_line_raises (String "010" "") "USW00094728" 4 Hblank).
Defined.

Lemma numeric_inr (columns : list string) (i : nat) (v : option Z) :
  numeric columns i = inr v ->
  exists f, nth_error columns i = Some f /\ stores f v.
Proof.
  unfold numeric, item.
  destruct (nth_error columns i) as [f|]; [|discriminate]. simpl.
  destruct (String.eqb_spec f "-9999") as [->|Hne]; simpl.
  - intros H. inversion H. exists "-9999". split; [reflexivity|constructor].
  - destruct (PyStr.int f) as [n|] eqn:E; [|discriminate].
    intros H. inversion H. exists f. split; [reflexivity|].
    now constructor.
Qed.

(** X4: the loop body builds a record exactly when the line has at least
    four columns and each of the second to fourth is [-9999] or accepted
    by [int()]; the record then holds the first column as date, NULL
    where the text is [-9999] and the integer elsewhere. *)
Theorem parse_line_inr_iff (line station : string) (now : Z)
        (r : WeatherRecord) :
  parse_line line station now = inr r <->
  exists d a b c extra x y z,
    columns_of line = d :: a :: b :: c :: extra
    /\ stores a x /\ stores b y /\ stores c z
    /\ r = mkWeatherRecord d x y z station now.
Proof.
  split.
  - intros H. apply parse_line_inr in H.
    destruct H as (d & x & y & z & Hd & Hx & Hy & Hz & ->).
    apply numeric_inr in Hx, Hy, Hz.
    destruct Hx as (a & Ha & Sa), Hy as (b & Hb & Sb), Hz as (c & Hc & Sc).
    unfold item in Hd.
    destruct (columns_of line) as [|d' [|a' [|b' [|c' extra]]]];
      try discriminate.
    simpl in *. inversion Hd; inversion Ha; inversion Hb; inversion Hc; subst.
    exists d, a, b, c, extra, x, y, z. auto.
  - intros (d & a & b & c & extra & x & y & z & Hcols & Sa & Sb & Sc & ->).
    now apply (parse_line_first_four line station now d a b c extra).
Qed.

End Columns.

(** * File names *)

Section FileNames.

Lemma length_append (s t : string) :
  String.length (s ++ t) = (String.length s + String.length t)%nat.
Proof. induction s as [|c s IH]; simpl; [reflexivity | now rewrite IH]. Qed.

Lemma substring_prefix (s t : string) :
  substring 0 (String.length s) (s ++ t) = s.
Proof.
  induction s as [|c s IH]; simpl.
  - now destruct t.
  - now rewrite IH.
Qed.

Lemma substring_skip (s t : string) (m : nat) :
  substring (String.length s) m (s ++ t) = substring 0 m t.
Proof. induction s as [|c s IH]; simpl; [reflexivity | exact IH]. Qed.

Lemma rfind_dot_append (s t : string) :
  PyStr.rfind_dot (s ++ t)
  = match PyStr.rfind_dot t with
    | Some i => Some (String.length s + i)%nat
    | None => PyStr.rfind_dot s
    end.
Proof.
  induction s as [|c s IH]; simpl.
  - now destruct (PyStr.rfind_dot t).
  - rewrite IH. destruct (PyStr.rfind_dot t); reflexivity.
Qed.

(** X5: the entry [<stem>.txt] is read, and its records carry the station
    [<stem>], dots inside the stem included; only when the stem is empty
    or made of dots alone is the station the whole name, [.txt]
    included. *)
Theorem station_of_txt_entry (stem : string) :
  PyStr.endswith (stem ++ ".txt") ".txt" = true
  /\ PyStr.splitext_root (stem ++ ".txt")
     = if PyStr.all_dots stem then (stem ++ ".txt")%string else stem.
Proof.
  split.
  - unfold PyStr.endswith. rewrite length_append. simpl String.length.
    replace (String.length stem + 4 - 4)%nat with (String.length stem) by lia.
    rewrite substring_skip. simpl.
    destruct (String.length stem + 4)%nat as [|[|[|[|n]]]] eqn:E;
      try lia; reflexivity.
  - unfold PyStr.splitext_root. rewrite rfind_dot_append. simpl.
    rewrite Nat.add_0_r, substring_prefix. reflexivity.
Qed.

End FileNames.

(** * More on [load_data_from_files] *)

Section IngestionMore.

Import LoadData.
Variable utcnow : nat -> Z.

Lemma load_files_filter (entries : list (string * list string))
      (s : Session) :
  load_files utcnow entries s
  = load_files utcnow (filter Script.is_txt entries) s.
Proof.
  revert s; induction entries as [|[name lines] entries IH]; intros s;
    [reflexivity|].
  cbn [filter load_files].
  change (Script.is_txt (name, lines)) with (PyStr.endswith name ".txt").
  destruct (PyStr.endswith name ".txt") eqn:E.
  - cbn [load_files]. rewrite E.
    destruct (read_lines utcnow (PyStr.splitext_root name) lines s);
      [apply IH | reflexivity].
  - apply IH.
Qed.

(** The records a file adds to the session, line by line. *)
Lemma read_lines_finished (station : string) (lines : list string) :
  forall s s',
    read_lines utcnow station lines s = Finished s' ->
    table s' = table s
    /\ record_count s' = (record_count s + List.length lines)%nat
    /\ exists recs,
         pending s' = pending s ++ recs
         /\ Forall2 (fun line r =>
                       parse_line line station (ingestion_timestamp r) = inr r)
                    lines recs
         /\ map ingestion_timestamp recs
            = map utcnow (seq (record_count s) (List.length lines))
         /\ map weather_station_id recs = map (fun _ => station) lines.
Proof.
  induction lines as [|line rest IH]; intros s s' Hrun; cbn [read_lines] in Hrun.
  - inversion Hrun; subst. split; [reflexivity|]. split; [simpl; lia|].
    exists []. rewrite app_nil_r. repeat split; constructor.
  - destruct (parse_line line station (utcnow (record_count s)))
      as [e|r] eqn:Ep; [discriminate|].
    destruct (IH _ _ Hrun) as (Ht & Hc & recs & Hp & Hl & Hts & Hst).
    pose proof Ep as Ep'. apply parse_line_inr in Ep'.
    destruct Ep' as (d & x & y & z & _ & _ & _ & _ & Hr).
    assert (Hrts : ingestion_timestamp r = utcnow (record_count s))
      by (rewrite Hr; reflexivity).
    assert (Hrst : weather_station_id r = station)
      by (rewrite Hr; reflexivity).
    split; [exact Ht|]. split; [simpl in Hc |- *; lia|].
    exists (r :: recs). split; [|split; [|split]].
    + rewrite Hp. simpl. now rewrite <- app_assoc.
    + constructor; [now rewrite Hrts | exact Hl].
    + simpl. rewrite Hrts. f_equal. exact Hts.
    + simpl. now rewrite Hrst, Hst.
Qed.

Lemma load_files_grows (entries : list (string * list string)) :
  forall s, pending s = [] ->
    exists new,
      table (final_state (load_files utcnow entries s)) = table s ++ new.
Proof.
  induction entries as [|[name lines] entries IH]; intros s Hp.
  - exists []. simpl. now rewrite app_nil_r.
  - cbn [load_files]. destruct (PyStr.endswith name ".txt"); [|now apply IH].
    pose proof (read_lines_table utcnow (PyStr.splitext_root name) lines s)
      as Ht.
    destruct (read_lines utcnow (PyStr.splitext_root name) lines s)
      as [s1|e s1]; simpl in Ht.
    + destruct (IH (commit s1) eq_refl) as (new & Hnew).
      exists (pending s1 ++ new). rewrite Hnew. unfold commit. simpl.
      now rewrite Ht, app_assoc.
    + exists []. simpl. now rewrite Ht, app_nil_r.
Qed.

(** The lines [load_data_from_files] reads, each with the station of its
    entry. *)
Local Abbreviation station_lines entries :=
  (flat_map (fun entry : string * list string =>
               map (pair (PyStr.splitext_root (fst entry))) (snd entry))
            (filter Script.is_txt entries)).

Lemma load_files_finished (entries : list (string * list string)) :
  forall s s',
    pending s = [] ->
    load_files utcnow entries s = Finished s' ->
    pending s' = []
    /\ exists new,
         table s' = table s ++ new
         /\ record_count s' = (record_count s + List.length new)%nat
         /\ Forall2 (fun sl r =>
                       parse_line (snd sl) (fst sl) (ingestion_timestamp r)
                       = inr r)
                    (station_lines entries) new
         /\ map ingestion_timestamp new
            = map utcnow (seq (record_count s) (List.length new)).
Proof.
  induction entries as [|[name lines] entries IH]; intros s s' Hp Hrun.
  - inversion Hrun; subst. split; [exact Hp|].
    exists []. rewrite app_nil_r. repeat split; [simpl; lia | constructor].
  - cbn [load_files] in Hrun. cbn [filter].
    change (Script.is_txt (name, lines)) with (PyStr.endswith name ".txt").
    destruct (PyStr.endswith name ".txt"); [|now apply IH].
    destruct (read_lines utcnow (PyStr.splitext_root name) lines s)
      as [s1|e s1] eqn:Eread; [|discriminate].
    apply read_lines_finished in Eread.
    destruct Eread as (Ht & Hc & recs & Hpend & Hl & Hts & _).
    rewrite Hp in Hpend. simpl in Hpend.
    destruct (IH (commit s1) s' eq_refl Hrun)
      as (Hp' & new & Hnew & Hcount & Hall & Htimes).
    split; [exact Hp'|].
    assert (Hlen : List.length recs = List.length lines)
      by (symmetry; eapply Forall2_length; eassumption).
    unfold commit in Hnew, Hcount, Htimes. simpl in Hnew, Hcount, Htimes.
    exists (recs ++ new). split; [|split; [|split]].
    + rewrite Hnew, Ht, Hpend. now rewrite app_assoc.
    + rewrite Hcount, Hc, length_app. lia.
    + cbn [flat_map fst snd]. apply Forall2_app; [|exact Hall].
      clear - Hl. induction Hl; simpl; constructor; auto.
    + rewrite map_app, length_app, seq_app, map_app, Hts, Htimes, Hlen, Hc.
      reflexivity.
Qed.

(** X6: entries whose name does not end in [.txt] are never opened:
    whatever they hold, the run is the run over the [.txt] entries. *)
Theorem other_entries_are_skipped
        (directory : list (string * list string)) (db : list WeatherRecord) :
  load_data_from_files utcnow directory db
  = load_data_from_files utcnow (filter Script.is_txt directory) db.
Proof. apply load_files_filter. Qed.

(** X7: ingestion only appends: however the run ends, the table starts
    with the rows it held before, unchanged and in place. *)
Theorem ingestion_only_appends
        (directory : list (string * list string)) (db : list WeatherRecord) :
  exists new,
    table (final_state (load_data_from_files utcnow directory db))
    = db ++ new.
Proof.
  exact (load_files_grows directory (mkSession db [] 0) eq_refl).
Qed.

(** X8: when the run finishes nothing is left uncommitted, and the
    count it logs is the number of records added to the table, one for
    each line of the [.txt] entries. *)
Theorem finished_run_counts
        (directory : list (string * list string)) (db : list WeatherRecord)
        (s : Session) :
  load_data_from_files utcnow directory db = Finished s ->
  pending s = []
  /\ exists new,
       table s = db ++ new
       /\ record_count s = List.length new
       /\ List.length new
          = List.length (flat_map snd (filter Script.is_txt directory)).
Proof.
  intros Hrun. apply load_files_finished in Hrun; [|reflexivity].
  destruct Hrun as (Hp & new & Hnew & Hcount & Hall & _).
  split; [exact Hp|]. exists new. repeat split; try assumption.
  apply Forall2_length in Hall. rewrite <- Hall.
  clear. induction (filter Script.is_txt directory) as [|e es IH];
    [reflexivity|].
  cbn [flat_map]. now rewrite !length_app, length_map, IH.
Qed.

(** X9: when the run finishes, the i-th record added is the one the loop
    body builds from the i-th line read, with the stem of that line's
    entry as station and the i-th reading of the clock as timestamp. *)
Theorem finished_run_records
        (directory : list (string * list string)) (db : list WeatherRecord)
        (s : Session) :
  load_data_from_files utcnow directory db = Finished s ->
  exists new,
    table s = db ++ new
    /\ Forall2 (fun sl r =>
                  parse_line (snd sl) (fst sl) (ingestion_timestamp r) = inr r)
               (station_lines directory) new
    /\ map ingestion_timestamp new = map utcnow (seq 0 (List.length new)).
Proof.
  intros Hrun. apply load_files_finished in Hrun; [|reflexivity].
  destruct Hrun as (_ & new & Hnew & _ & Hall & Htimes).
  exists new. auto.
Qed.

End IngestionMore.

Lemma finished_run_counts_witness :
  LoadData.pending
    (LoadData.mkSession [Samples.full_old; Samples.good_record] [] 1) = []
  /\ exists new,
       LoadData.table
         (LoadData.mkSession [Samples.full_old; Samples.good_record] [] 1)
       = [Samples.full_old] ++ new
       /\ LoadData.record_count
            (LoadData.mkSession [Samples.full_old; Samples.good_record] [] 1)
          = List.length new
       /\ List.length new
          = List.length
              (flat_map snd
                 (filter Script.is_txt
                    [("notes.md", ["oops"]); ("b.txt", [Samples.good_line])])).
Proof.
  apply (finished_run_counts Samples.clock
           [("notes.md", ["oops"]); ("b.txt", [Samples.good_line])]
           [Samples.full_old]).
  reflexivity.
Defined.

Lemma finished_run_records_witness :
  exists new,
    LoadData.table
      (LoadData.mkSession [Samples.full_old; Samples.good_record] [] 1)
    = [Samples.full_old] ++ new
    /\ Forall2 (fun sl r =>
                  LoadData.parse_line (snd sl) (fst sl)
                                      (LoadData.ingestion_timestamp r) = inr r)
               (flat_map (fun entry : string * list string =>
                            map (pair (PyStr.splitext_root (fst entry)))
                                (snd entry))
                  (filter Script.is_txt
                     [("notes.md", ["oops"]); ("b.txt", [Samples.good_line])]))
               new
    /\ map LoadData.ingestion_timestamp new
       = map Samples.clock (seq 0 (List.length new)).
Proof.
  apply (finished_run_records Samples.clock
           [("notes.md", ["oops"]); ("b.txt", [Samples.good_line])]
           [Samples.full_old]).
  reflexivity.
Defined.

(** * More on duplicate removal *)

Section DedupMore.

Context {Row K : Type}.
Variable K_dec : forall a b : K, {a = b} + {a <> b}.
Variable key : Row -> K.
Variable tie : Row -> Z.
Variable on : Row -> K * option Z -> Sql.tri.
Variable joinable : K -> bool.

Hypothesis on_iff : forall r k m,
  Sql.holds (on r (k, m)) = true <->
  key r = k /\ joinable k = true /\ exists z, m = Some z /\ tie r <> z.

Local Abbreviation groups := (Sql.group_by_max K_dec key tie).
Local Abbreviation group_max k tbl :=
  (Sql.agg_max (map tie (Sql.members K_dec key k tbl))).
Local Abbreviation doomed tbl := (Sql.hit on (groups tbl)).
Local Abbreviation joined tbl :=
  (Sql.join on (Sql.with_rowid tbl) (groups tbl)).
Local Abbreviation run tbl :=
  (let dups := Sql.all (joined tbl) in
   (Sql.delete dups tbl, List.length dups)).
Local Abbreviation kept_iff' := (kept_iff K_dec key tie on joinable on_iff).

(** A row joins with the row of its own group or with none. *)
Lemma matching_groups (tbl : list Row) (r : Row) :
  filter (fun g => Sql.holds (on r g)) (groups tbl)
  = if doomed tbl r then [(key r, group_max (key r) tbl)] else [].
Proof.
  unfold Sql.hit, Sql.group_by_max, Sql.group_keys.
  pose proof (NoDup_nodup K_dec (map key tbl)) as Hnd.
  induction (nodup K_dec (map key tbl)) as [|k ks IH]; [reflexivity|].
  apply NoDup_cons_iff in Hnd. destruct Hnd as [Hfresh Hnd].
  specialize (IH Hnd). cbn [map filter existsb].
  destruct (Sql.holds (on r (k, group_max k tbl))) eqn:E.
  - apply on_iff in E. destruct E as (<- & _). cbn [orb]. f_equal.
    destruct (existsb _ _) eqn:Ex; [|exact IH].
    exfalso. apply existsb_exists in Ex. destruct Ex as ([k' m] & Hin & Hon).
    apply on_iff in Hon. destruct Hon as (<- & _).
    apply in_map_iff in Hin. destruct Hin as (k'' & Heq & Hk'').
    inversion Heq; subst. contradiction.
  - cbn [orb]. exact IH.
Qed.

Lemma joined_rows (tbl : list Row) (l : list (nat * Row)) :
  map fst (Sql.join on l (groups tbl))
  = filter (fun p => doomed tbl (snd p)) l.
Proof.
  unfold Sql.join. induction l as [|a l IH]; [reflexivity|].
  cbn [flat_map filter]. rewrite map_app, IH, matching_groups.
  cbv beta. unfold Sql.rowid. destruct (doomed tbl (snd a)); reflexivity.
Qed.

Lemma unique_rowids (keep : nat * Row -> bool) (l : list Row) :
  forall s n seen,
    (forall i, In i seen -> (i < s)%nat) ->
    Sql.unique seen (filter keep (combine (seq s n) l))
    = filter keep (combine (seq s n) l).
Proof.
  induction l as [|x l IH]; intros s n seen Hseen.
  - destruct (seq s n); reflexivity.
  - destruct n as [|n]; [reflexivity|]. cbn [seq combine filter].
    assert (Hnext : forall i, In i (s :: seen) -> (i < S s)%nat).
    { intros i [<-|Hi]; [lia|]. specialize (Hseen i Hi). lia. }
    destruct (keep (s, x)).
    + cbn [Sql.unique fst].
      destruct (existsb (Nat.eqb s) seen) eqn:E.
      * apply existsb_exists in E. destruct E as (i & Hi & Heq).
        apply Nat.eqb_eq in Heq. subst i. specialize (Hseen s Hi). lia.
      * f_equal. now apply IH.
    + apply IH. intros i Hi. specialize (Hseen i Hi). lia.
Qed.

Lemma filter_split_length {A : Type} (f : A -> bool) (l : list A) :
  (List.length (filter f l) + List.length (filter (fun a => negb (f a)) l)
   = List.length l)%nat.
Proof.
  induction l as [|x l IH]; [reflexivity|].
  simpl. destruct (f x); simpl; lia.
Qed.

(** The objects the query returns are the rows that are deleted, each
    once. *)
Lemma duplicates_are_doomed (tbl : list Row) :
  map snd (Sql.all (joined tbl)) = filter (doomed tbl) tbl.
Proof.
  unfold Sql.all. rewrite joined_rows. unfold Sql.with_rowid.
  rewrite unique_rowids by (intros i []).
  apply (filter_snd_combine (doomed tbl)), length_seq.
Qed.

(** The count is the number of rows deleted, and the rows left are rows
    of the table in their order. *)
Lemma run_accounts (tbl : list Row) :
  fst (run tbl) = filter (fun r => negb (doomed tbl r)) tbl
  /\ (snd (run tbl) + List.length (fst (run tbl)) = List.length tbl)%nat.
Proof.
  split; [apply (run_fst K_dec key tie on)|].
  rewrite (run_fst K_dec key tie on). cbn [snd].
  rewrite <- (length_map snd), duplicates_are_doomed.
  apply filter_split_length.
Qed.

(** A row without NULL in its key stays exactly when no row of its group
    has a greater value in the maximised column. *)
Lemma kept_iff_greatest (tbl : list Row) (r : Row) :
  joinable (key r) = true ->
  (In r (fst (run tbl)) <->
   In r tbl /\ forall r', In r' tbl -> key r' = key r -> tie r' <= tie r).
Proof.
  intros Hj. rewrite (kept_iff' tbl r Hj). split.
  - intros [Hin Hmax]. split; [assumption|]. intros r' Hr' Hk.
    apply (agg_max_bound _ _ Hmax), in_map, member_iff. auto.
  - intros [Hin Hle]. split; [assumption|].
    destruct (group_max_some K_dec key tie tbl r Hin) as (m & Em & Hrm).
    destruct (group_max_attained K_dec key tie tbl _ _ Em)
      as (r' & Hr' & Hk & Ht).
    specialize (Hle r' Hr' Hk). rewrite Em. f_equal. lia.
Qed.

(** No group disappears: of each row some row with the same key and a
    value at least as great stays. *)
Lemma group_survives (tbl : list Row) (r : Row) :
  In r tbl ->
  exists r', In r' (fst (run tbl)) /\ key r' = key r /\ tie r <= tie r'.
Proof.
  intros Hin. destruct (joinable (key r)) eqn:Hj.
  - destruct (group_max_some K_dec key tie tbl r Hin) as (m & Em & Hrm).
    destruct (group_max_attained K_dec key tie tbl _ _ Em)
      as (r' & Hr' & Hk & Ht).
    exists r'. split; [|split; [assumption | lia]].
    apply kept_iff'; [now rewrite Hk|].
    split; [assumption|]. now rewrite Hk, Ht.
  - exists r. split; [|split; [reflexivity | lia]].
    now apply (null_key_kept K_dec key tie on joinable on_iff).
Qed.

(** The rows with the greatest value of the whole table stay. *)
Lemma greatest_kept (tbl : list Row) (r : Row) :
  In r tbl -> (forall r', In r' tbl -> tie r' <= tie r) ->
  In r (fst (run tbl)).
Proof.
  intros Hin Hmax. destruct (joinable (key r)) eqn:Hj.
  - apply kept_iff_greatest; auto.
  - now apply (null_key_kept K_dec key tie on joinable on_iff).
Qed.

Lemma filter_swap {A : Type} (f g : A -> bool) (l : list A) :
  filter f (filter g l) = filter g (filter f l).
Proof.
  induction l as [|x l IH]; [reflexivity|]. simpl.
  destruct (f x) eqn:Ef, (g x) eqn:Eg; simpl;
    rewrite ?Ef, ?Eg, IH; reflexivity.
Qed.

(** Where the maximised column tells the rows of a group without NULL
    apart, the group is left with one row, the one with the greatest
    value. *)
Lemma sole_survivor (tbl : list Row) (k : K) (r0 : Row) :
  joinable k = true -> In r0 tbl -> key r0 = k ->
  NoDup (map tie (Sql.members K_dec key k tbl)) ->
  exists r,
    Sql.members K_dec key k (fst (run tbl)) = [r]
    /\ In r tbl
    /\ forall r', In r' tbl -> key r' = k -> tie r' <= tie r.
Proof.
  intros Hj Hr0 Hk0 Hnd.
  assert (Hin : forall r, In r (Sql.members K_dec key k (fst (run tbl))) ->
                          In r tbl /\ key r = k /\
                          forall r', In r' tbl -> key r' = k ->
                                     tie r' <= tie r).
  { intros r Hr. apply member_iff in Hr. destruct Hr as [Hr Hk].
    assert (Hj' : joinable (key r) = true) by now rewrite Hk.
    apply (kept_iff_greatest tbl r Hj') in Hr. destruct Hr as [Hr Hmax].
    split; [assumption|]. split; [assumption|].
    intros r' Hr' Hk'. apply Hmax; congruence. }
  assert (Hnd' : NoDup (map tie (Sql.members K_dec key k (fst (run tbl))))).
  { rewrite (run_fst K_dec key tie on). unfold Sql.members.
    rewrite filter_swap. now apply distinct_ties_filter. }
  destruct (group_survives tbl r0 Hr0) as (r1 & Hr1 & Hk1 & _).
  assert (Hm1 : In r1 (Sql.members K_dec key k (fst (run tbl))))
    by (apply member_iff; split; [assumption | congruence]).
  destruct (Sql.members K_dec key k (fst (run tbl))) as [|a [|b l]].
  - contradiction.
  - exists a. split; [reflexivity|].
    destruct (Hin a (or_introl eq_refl)) as (Ha & _ & Hmax). auto.
  - exfalso.
    destruct (Hin a (or_introl eq_refl)) as (Ha & Hka & Hamax).
    destruct (Hin b (or_intror (or_introl eq_refl))) as (Hb & Hkb & Hbmax).
    assert (tie a = tie b).
    { specialize (Hamax b Hb Hkb). specialize (Hbmax a Ha Hka). lia. }
    simpl in Hnd'. apply NoDup_cons_iff in Hnd'. destruct Hnd' as [Hfresh _].
    apply Hfresh. now left.
Qed.

End DedupMore.

(** * More on [load_data.remove_duplicates] *)

Section RawDedupMore.

Import LoadData.

(** X10: [remove_duplicates] only deletes: the rows left are rows of the
    table in their order, and the count it logs is the number of rows
    that are gone. *)
Theorem raw_dedup_accounting (tbl : list WeatherRecord) :
  (exists keep, fst (remove_duplicates tbl) = filter keep tbl)
  /\ (snd (remove_duplicates tbl) + List.length (fst (remove_duplicates tbl))
      = List.length tbl)%nat.
Proof.
  destruct (run_accounts Key_dec key ingestion_timestamp on no_null
              raw_on_iff tbl) as [Hfst Hcount].
  split; [eexists; exact Hfst | exact Hcount].
Qed.

(** X11: a record without NULL in its business columns stays exactly when
    no record of the table with the same business columns has a later
    ingestion timestamp; records that tie on the latest timestamp all
    stay. *)
Theorem raw_kept_iff_latest (tbl : list WeatherRecord) (r : WeatherRecord) :
  no_null (key r) = true ->
  (In r (fst (remove_duplicates tbl)) <->
   In r tbl /\
   forall r', In r' tbl -> key r' = key r ->
              ingestion_timestamp r' <= ingestion_timestamp r).
Proof.
  exact (kept_iff_greatest Key_dec key ingestion_timestamp on no_null
           raw_on_iff tbl r).
Qed.

Lemma raw_kept_iff_latest_witness :
  no_null (key Samples.full_new) = true
  /\ (In Samples.full_new
         (fst (remove_duplicates [Samples.full_old; Samples.full_new])) <->
      In Samples.full_new [Samples.full_old; Samples.full_new] /\
      forall r', In r' [Samples.full_old; Samples.full_new] ->
                 key r' = key Samples.full_new ->
                 ingestion_timestamp r'
                 <= ingestion_timestamp Samples.full_new).
Proof.
  split; [reflexivity|].
  apply (raw_kept_iff_latest [Samples.full_old; Samples.full_new]
           Samples.full_new).
  reflexivity.
Defined.

(** X12: no observation is lost altogether: of every record of the table
    a record with the same business columns, ingested at the same time or
    later, is still there afterwards. *)
Theorem raw_no_observation_lost (tbl : list WeatherRecord) (r : WeatherRecord) :
  In r tbl ->
  exists r', In r' (fst (remove_duplicates tbl))
             /\ key r' = key r
             /\ ingestion_timestamp r <= ingestion_timestamp r'.
Proof.
  exact (group_survives Key_dec key ingestion_timestamp on no_null
           raw_on_iff tbl r).
Qed.

Lemma raw_no_observation_lost_witness :
  In Samples.full_old [Samples.full_old; Samples.full_new]
  /\ exists r', In r' (fst (remove_duplicates
                              [Samples.full_old; Samples.full_new]))
                /\ key r' = key Samples.full_old
                /\ ingestion_timestamp Samples.full_old
                   <= ingestion_timestamp r'.
Proof.
  assert (Hin : In Samples.full_old [Samples.full_old; Samples.full_new])
    by now left.
  split; [exact Hin|].
  exact (raw_no_observation_lost [Samples.full_old; Samples.full_new]
           Samples.full_old Hin).
Defined.

(** X13: when the records that share their business columns, none of them
    NULL, were ingested at different times, exactly one of them is left:
    the one ingested last. *)
Theorem raw_latest_copy_alone_is_left
        (tbl : list WeatherRecord) (k : Key) (r0 : WeatherRecord) :
  no_null k = true -> In r0 tbl -> key r0 = k ->
  NoDup (map ingestion_timestamp (Sql.members Key_dec key k tbl)) ->
  exists r,
    Sql.members Key_dec key k (fst (remove_duplicates tbl)) = [r]
    /\ In r tbl
    /\ forall r', In r' tbl -> key r' = k ->
                  ingestion_timestamp r' <= ingestion_timestamp r.
Proof.
  exact (sole_survivor Key_dec key ingestion_timestamp on no_null
           raw_on_iff tbl k r0).
Qed.

Lemma raw_latest_copy_alone_is_left_witness :
  exists r,
    Sql.members Key_dec key (key Samples.full_old)
      (fst (remove_duplicates
              [Samples.full_old; Samples.gap_old; Samples.full_new])) = [r]
    /\ In r [Samples.full_old; Samples.gap_old; Samples.full_new]
    /\ forall r', In r' [Samples.full_old; Samples.gap_old; Samples.full_new] ->
                  key r' = key Samples.full_old ->
                  ingestion_timestamp r' <= ingestion_timestamp r.
Proof.
  apply (raw_latest_copy_alone_is_left
           [Samples.full_old; Samples.gap_old; Samples.full_new]
           (key Samples.full_old) Samples.full_old).
  - reflexivity.
  - now left.
  - reflexivity.
  - vm_compute. repeat constructor; simpl; intuition discriminate.
Defined.

End RawDedupMore.

(** * More on [calculate_statistics.remove_duplicates] *)

Section StatsDedupMore.

Import CalculateStatistics.

(** C4, amended: in a table whose [id]s are distinct, after
    [remove_duplicates] each tuple (year, weather_station_id,
    avg_max_temp, avg_min_temp, total_precipitation) in which no
    aggregate is NULL has at most one row, and exactly one, the row with
    the greatest [id], when a row with that tuple was in the table: a
    (year, weather_station_id) pair keeps one row for each of its value
    tuples. *)
Theorem stats_at_most_one_per_value_tuple
        (tbl : list WeatherStats) (k : Key) :
  NoDup (map id tbl) ->
  no_null k = true ->
  (List.length (Sql.members Key_dec key k (fst (remove_duplicates tbl)))
   <= 1)%nat
  /\ forall r0, In r0 tbl -> key r0 = k ->
       exists r,
         Sql.members Key_dec key k (fst (remove_duplicates tbl)) = [r]
         /\ In r tbl
         /\ forall r', In r' tbl -> key r' = k -> id r' <= id r.
Proof.
  intros Hids Hnn. split.
  - exact (at_most_one_kept Key_dec key id on no_null stats_on_iff tbl k
             Hids Hnn).
  - intros r0 Hr0 Hk.
    apply (sole_survivor Key_dec key id on no_null stats_on_iff tbl k r0);
      try assumption.
    unfold Sql.members. now apply distinct_ties_filter.
Qed.

Lemma stats_at_most_one_per_value_tuple_witness :
  NoDup (map id [Samples.stat_a_1; Samples.stat_a_2; Samples.stat_b_3])
  /\ no_null (key Samples.stat_a_1) = true
  /\ (List.length
        (Sql.members Key_dec key (key Samples.stat_a_1)
           (fst (remove_duplicates
                   [Samples.stat_a_1; Samples.stat_a_2; Samples.stat_b_3])))
      <= 1)%nat
  /\ forall r0,
       In r0 [Samples.stat_a_1; Samples.stat_a_2; Samples.stat_b_3] ->
       key r0 = key Samples.stat_a_1 ->
       exists r,
         Sql.members Key_dec key (key Samples.stat_a_1)
           (fst (remove_duplicates
                   [Samples.stat_a_1; Samples.stat_a_2; Samples.stat_b_3]))
         = [r]
         /\ In r [Samples.stat_a_1; Samples.stat_a_2; Samples.stat_b_3]
         /\ forall r',
              In r' [Samples.stat_a_1; Samples.stat_a_2; Samples.stat_b_3] ->
              key r' = key Samples.stat_a_1 -> id r' <= id r.
Proof.
  assert (Hids : NoDup (map id [Samples.stat_a_1; Samples.stat_a_2;
                                Samples.stat_b_3]))
    by (simpl; repeat constructor; simpl; intuition discriminate).
  split; [exact Hids|]. split; [reflexivity|].
  apply (stats_at_most_one_per_value_tuple
           [Samples.stat_a_1; Samples.stat_a_2; Samples.stat_b_3]
           (key Samples.stat_a_1)).
  - exact Hids.
  - reflexivity.
Defined.

(** The table of the witness: the two value tuples of the one year and
    station each keep their newest row. *)
Example stats_one_row_per_value_tuple :
  fst (remove_duplicates
         [Samples.stat_a_1; Samples.stat_a_2; Samples.stat_b_3])
  = [Samples.stat_a_2; Samples.stat_b_3].
Proof. vm_compute. reflexivity. Qed.

(** X14: [remove_duplicates] only deletes: the rows left are rows of the
    table in their order, and the count it logs is the number of rows
    that are gone. *)
Theorem stats_dedup_accounting (tbl : list WeatherStats) :
  (exists keep, fst (remove_duplicates tbl) = filter keep tbl)
  /\ (snd (remove_duplicates tbl) + List.length (fst (remove_duplicates tbl))
      = List.length tbl)%nat.
Proof.
  destruct (run_accounts Key_dec key id on no_null stats_on_iff tbl)
    as [Hfst Hcount].
  split; [eexists; exact Hfst | exact Hcount].
Qed.

(** X15: a row whose three aggregates are not NULL stays exactly when no
    row of the table with the same year, station and aggregates has a
    greater [id]. *)
Theorem stats_kept_iff_greatest_id (tbl : list WeatherStats) (r : WeatherStats) :
  no_null (key r) = true ->
  (In r (fst (remove_duplicates tbl)) <->
   In r tbl /\ forall r', In r' tbl -> key r' = key r -> id r' <= id r).
Proof.
  exact (kept_iff_greatest Key_dec key id on no_null stats_on_iff tbl r).
Qed.

Lemma stats_kept_iff_greatest_id_witness :
  no_null (key Samples.stat_a_1) = true
  /\ (In Samples.stat_a_1
         (fst (remove_duplicates [Samples.stat_a_1; Samples.stat_a_2])) <->
      In Samples.stat_a_1 [Samples.stat_a_1; Samples.stat_a_2] /\
      forall r', In r' [Samples.stat_a_1; Samples.stat_a_2] ->
                 key r' = key Samples.stat_a_1 -> id r' <= id Samples.stat_a_1).
Proof.
  split; [reflexivity|].
  apply (stats_kept_iff_greatest_id [Samples.stat_a_1; Samples.stat_a_2]
           Samples.stat_a_1).
  reflexivity.
Defined.

(** X16: no value tuple is lost altogether: of every row of the table a
    row with the same year, station and aggregates and an [id] at least
    as great is still there afterwards. *)
Theorem stats_no_value_tuple_lost (tbl : list WeatherStats) (r : WeatherStats) :
  In r tbl ->
  exists r', In r' (fst (remove_duplicates tbl))
             /\ key r' = key r /\ id r <= id r'.
Proof.
  exact (group_survives Key_dec key id on no_null stats_on_iff tbl r).
Qed.

Lemma stats_no_value_tuple_lost_witness :
  In Samples.stat_a_1 [Samples.stat_a_1; Samples.stat_a_2]
  /\ exists r', In r' (fst (remove_duplicates
                              [Samples.stat_a_1; Samples.stat_a_2]))
                /\ key r' = key Samples.stat_a_1
                /\ id Samples.stat_a_1 <= id r'.
Proof.
  assert (Hin : In Samples.stat_a_1 [Samples.stat_a_1; Samples.stat_a_2])
    by now left.
  split; [exact Hin|].
  exact (stats_no_value_tuple_lost [Samples.stat_a_1; Samples.stat_a_2]
           Samples.stat_a_1 Hin).
Defined.

(** X17: in a table whose [id]s are distinct, each value tuple without
    NULL that occurs in the table is left with exactly one row, the one
    with the greatest [id]. *)
Theorem stats_newest_copy_alone_is_left
        (tbl : list WeatherStats) (k : Key) (r0 : WeatherStats) :
  NoDup (map id tbl) ->
  no_null k = true -> In r0 tbl -> key r0 = k ->
  exists r,
    Sql.members Key_dec key k (fst (remove_duplicates tbl)) = [r]
    /\ In r tbl
    /\ forall r', In r' tbl -> key r' = k -> id r' <= id r.
Proof.
  intros Hids Hnn Hr0 Hk.
  apply (sole_survivor Key_dec key id on no_null stats_on_iff tbl k r0);
    try assumption.
  unfold Sql.members. now apply distinct_ties_filter.
Qed.

Lemma stats_newest_copy_alone_is_left_witness :
  exists r,
    Sql.members Key_dec key (key Samples.stat_a_1)
      (fst (remove_duplicates
              [Samples.stat_a_1; Samples.stat_a_2; Samples.stat_b_3])) = [r]
    /\ In r [Samples.stat_a_1; Samples.stat_a_2; Samples.stat_b_3]
    /\ forall r', In r' [Samples.stat_a_1; Samples.stat_a_2; Samples.stat_b_3] ->
                  key r' = key Samples.stat_a_1 -> id r' <= id r.
Proof.
  apply (stats_newest_copy_alone_is_left
           [Samples.stat_a_1; Samples.stat_a_2; Samples.stat_b_3]
           (key Samples.stat_a_1) Samples.stat_a_1).
  - simpl. repeat constructor; simpl; intuition discriminate.
  - reflexivity.
  - now left.
  - reflexivity.
Defined.

(** X18: a row whose [id] is the greatest of the table is never deleted,
    NULL aggregates or not. *)
Theorem stats_greatest_id_is_kept (tbl : list WeatherStats) (r : WeatherStats) :
  In r tbl -> (forall r', In r' tbl -> id r' <= id r) ->
  In r (fst (remove_duplicates tbl)).
Proof.
  exact (greatest_kept Key_dec key id on no_null stats_on_iff tbl r).
Qed.

Lemma stats_greatest_id_is_kept_witness :
  In Samples.stat_b_3
     (fst (remove_duplicates
             [Samples.stat_a_1; Samples.stat_a_2; Samples.stat_b_3])).
Proof.
  apply (stats_greatest_id_is_kept
           [Samples.stat_a_1; Samples.stat_a_2; Samples.stat_b_3]
           Samples.stat_b_3).
  - right. right. now left.
  - intros r' [<- | [<- | [<- | []]]]; simpl; lia.
Defined.

End StatsDedupMore.

(** * More on [calculate_statistics] *)

Section AggregationMore.

Import CalculateStatistics.

Lemma bulk_save_app (db : StatsDb) (us vs : list Unsaved) :
  bulk_save_objects (bulk_save_objects db us) vs
  = bulk_save_objects db (us ++ vs).
Proof. unfold bulk_save_objects. now rewrite fold_left_app. Qed.

(** However the loop ends, the store holds what it held plus saved
    objects. *)
Lemma save_loop_saved (recs : list StatRow) :
  forall batch db,
  exists us, final_state (save_loop recs batch db) = bulk_save_objects db us.
Proof.
  induction recs as [|record rest IH]; intros batch db; cbn [save_loop].
  - exists batch. now destruct batch.
  - destruct (PyStr.int (r_year record)) as [y|]; [|now exists []].
    cbv zeta. destruct (batch_size <=? _)%nat.
    + destruct (IH [] (bulk_save_objects db
                         (batch ++ [mkUnsaved y (r_weather_station_id record)
                                      (r_avg_max_temp record)
                                      (r_avg_min_temp record)
                                      (r_total_precipitation record)])))
        as (us & Hus).
      rewrite Hus, bulk_save_app. eauto.
    + apply IH.
Qed.

Lemma save_loop_raised (recs : list StatRow) :
  forall batch db e db',
    (List.length batch < batch_size)%nat ->
    save_loop recs batch db = Raised e db' ->
    e = ValueError
    /\ Exists (fun record => PyStr.int (r_year record) = None) recs
    /\ exists us q, db' = bulk_save_objects db us
                    /\ List.length us = (q * batch_size)%nat.
Proof.
  induction recs as [|record rest IH]; intros batch db e db' Hlen Hrun;
    cbn [save_loop] in Hrun.
  - destruct batch; discriminate.
  - destruct (PyStr.int (r_year record)) as [y|] eqn:Ey.
    + cbv zeta in Hrun.
      set (u := mkUnsaved y (r_weather_station_id record)
                          (r_avg_max_temp record) (r_avg_min_temp record)
                          (r_total_precipitation record)) in *.
      assert (Hlen' : List.length (batch ++ [u]) = S (List.length batch))
        by (rewrite length_app; simpl; lia).
      destruct (Nat.leb_spec batch_size (List.length (batch ++ [u])))
        as [Hfull|Hroom].
      * assert (Hpos : (0 < batch_size)%nat) by (unfold batch_size; lia).
        destruct (IH [] _ e db' Hpos Hrun) as (He & Hbad & us & q & Hdb & Hq).
        split; [exact He|]. split; [now right|].
        exists ((batch ++ [u]) ++ us), (S q). split.
        -- now rewrite <- bulk_save_app.
        -- rewrite length_app, Hq. unfold batch_size in *. lia.
      * destruct (IH _ db e db' Hroom Hrun) as (He & Hbad & Hsaved).
        split; [exact He|]. split; [now right | exact Hsaved].
    + inversion Hrun; subst. split; [reflexivity|]. split; [now left|].
      exists [], 0%nat. split; reflexivity.
Qed.

Lemma save_loop_finished_years (recs : list StatRow) :
  forall batch db db',
    save_loop recs batch db = Finished db' ->
    Forall (fun record => PyStr.int (r_year record) <> None) recs.
Proof.
  induction recs as [|record rest IH]; intros batch db db' Hrun;
    [constructor|].
  cbn [save_loop] in Hrun.
  destruct (PyStr.int (r_year record)) as [y|] eqn:Ey; [|discriminate].
  constructor; [congruence|]. cbv zeta in Hrun.
  destruct (batch_size <=? _)%nat; eapply IH; eassumption.
Qed.

Lemma numbered_ids (us : list Unsaved) :
  forall i,
    NoDup (map id (numbered i us))
    /\ forall r, In r (numbered i us) ->
                 i <= id r < i + Z.of_nat (List.length us).
Proof.
  induction us as [|u us IH]; intros i; cbn [numbered map List.length].
  - split; [constructor | intros r []].
  - destruct (IH (i + 1)) as [Hnd Hrange]. split.
    + constructor; [|exact Hnd]. intros Hin. apply in_map_iff in Hin.
      destruct Hin as (r & Hid & Hr). specialize (Hrange r Hr).
      simpl in Hid. lia.
    + intros r [<-|Hr]; [simpl; lia|]. specialize (Hrange r Hr). lia.
Qed.

Lemma bulk_save_fresh (db : StatsDb) (us : list Unsaved) :
  Script.ids_fresh db ->
  Script.ids_fresh (bulk_save_objects db us)
  /\ forall r, In r (numbered (next_id db) us) -> next_id db <= id r.
Proof.
  intros [Hnd Hlt]. rewrite bulk_save_numbered.
  destruct (numbered_ids us (next_id db)) as [Hnd' Hrange].
  split; [|intros r Hr; specialize (Hrange r Hr); lia].
  split; cbn [rows next_id].
  - rewrite map_app. apply NoDup_app; [exact Hnd | exact Hnd'|].
    intros i Hi Hi'. apply in_map_iff in Hi, Hi'.
    destruct Hi as (r & <- & Hr), Hi' as (r' & Heq & Hr').
    specialize (Hlt r Hr). specialize (Hrange r' Hr'). lia.
  - intros r Hr. apply in_app_or in Hr. destruct Hr as [Hr|Hr].
    + specialize (Hlt r Hr). lia.
    + specialize (Hrange r Hr). lia.
Qed.

(** X19: [calculate_statistics] raises exactly when the first four
    characters of some stored date are not a number for [int()]; the
    exception is then always the [ValueError] of [int(record.year)]; and
    it finishes exactly when every stored date starts with such a
    number. *)
Theorem calculate_statistics_raises_iff
        (tbl : list LoadData.WeatherRecord) (db : StatsDb) :
  ((exists r, In r tbl
              /\ PyStr.int (PyStr.prefix 4 (LoadData.date r)) = None)
   <-> exists e db', calculate_statistics tbl db = Raised e db')
  /\ (forall e db', calculate_statistics tbl db = Raised e db' ->
                    e = ValueError)
  /\ ((forall r, In r tbl ->
                 PyStr.int (PyStr.prefix 4 (LoadData.date r)) <> None)
      <-> exists db', calculate_statistics tbl db = Finished db').
Proof.
  assert (Hpos : (List.length (@nil Unsaved) < batch_size)%nat)
    by (unfold batch_size; simpl; lia).
  assert (Hyear : forall record,
             In record (records tbl) ->
             exists r, In r tbl
                       /\ r_year record = PyStr.prefix 4 (LoadData.date r)).
  { intros record Hin. unfold records in Hin. apply in_map_iff in Hin.
    destruct Hin as (k & <- & Hk). apply group_keys_iff in Hk.
    destruct Hk as (r & Hr & <-). exists r. split; [assumption|reflexivity]. }
  assert (Hrow : forall r, In r tbl ->
             exists record, In record (records tbl)
                            /\ r_year record = PyStr.prefix 4 (LoadData.date r)).
  { intros r Hr. exists (stat_row tbl (group_key r)). split; [|reflexivity].
    unfold records. apply in_map. apply group_keys_iff. eauto. }
  unfold calculate_statistics. split; [split|split; [|split]].
  - intros (r & Hr & Hbad).
    destruct (save_loop (records tbl) [] db) as [db'|e db'] eqn:Erun; [|eauto].
    exfalso. apply save_loop_finished_years in Erun.
    rewrite Forall_forall in Erun.
    destruct (Hrow r Hr) as (record & Hrec & Hy).
    apply (Erun record Hrec). now rewrite Hy.
  - intros (e & db' & Hrun).
    destruct (save_loop_raised _ _ _ _ _ Hpos Hrun) as (_ & Hbad & _).
    apply Exists_exists in Hbad. destruct Hbad as (record & Hin & Hnone).
    destruct (Hyear record Hin) as (r & Hr & Hy).
    exists r. split; [assumption | now rewrite <- Hy].
  - intros e db' Hrun.
    now destruct (save_loop_raised _ _ _ _ _ Hpos Hrun) as (-> & _).
  - intros Hall.
    assert (Hrecs : Forall (fun record => PyStr.int (r_year record) <> None)
                           (records tbl)).
    { apply Forall_forall. intros record Hin.
      destruct (Hyear record Hin) as (r & Hr & ->). now apply Hall. }
    destruct (save_loop_finishes (records tbl) Hrecs [] db) as (us & _ & ->).
    eauto.
  - intros (db' & Hrun) r Hr.
    apply save_loop_finished_years in Hrun. rewrite Forall_forall in Hrun.
    destruct (Hrow r Hr) as (record & Hrec & Hy).
    rewrite <- Hy. now apply Hrun.
Qed.

(** X20: when the loop over the rows of the query raises, whatever the
    rows and their order, the rows it has added to the table are whole
    batches: their number is a multiple of [batch_size], and the objects
    built since the last full batch are not saved. *)
Theorem raised_run_saves_whole_batches
        (recs : list StatRow) (db db' : StatsDb) (e : Exn) :
  save_loop recs [] db = Raised e db' ->
  exists new q,
    rows db' = rows db ++ new
    /\ List.length new = (q * batch_size)%nat
    /\ next_id db' = next_id db + Z.of_nat (List.length new).
Proof.
  intros Hrun.
  assert (Hpos : (List.length (@nil Unsaved) < batch_size)%nat)
    by (unfold batch_size; simpl; lia).
  destruct (save_loop_raised _ _ _ _ _ Hpos Hrun)
    as (_ & _ & us & q & -> & Hq).
  exists (numbered (next_id db) us), q.
  rewrite bulk_save_numbered, length_numbered. cbn [rows next_id]. auto.
Qed.

Lemma raised_run_saves_whole_batches_witness :
  List.length Samples.many_rows = 1007%nat
  /\ List.length
       (rows (final_state (save_loop Samples.many_rows []
                             (mkStatsDb [Samples.stat_a_1] 2))))
     = 1001%nat
  /\ exists new q,
       rows (final_state (save_loop Samples.many_rows []
                            (mkStatsDb [Samples.stat_a_1] 2)))
       = rows (mkStatsDb [Samples.stat_a_1] 2) ++ new
       /\ List.length new = (q * batch_size)%nat
       /\ next_id (final_state (save_loop Samples.many_rows []
                                  (mkStatsDb [Samples.stat_a_1] 2)))
          = next_id (mkStatsDb [Samples.stat_a_1] 2)
            + Z.of_nat (List.length new).
Proof.
  split; [vm_compute; reflexivity|]. split; [vm_compute; reflexivity|].
  apply (raised_run_saves_whole_batches
           Samples.many_rows (mkStatsDb [Samples.stat_a_1] 2)
           (final_state (save_loop Samples.many_rows []
                           (mkStatsDb [Samples.stat_a_1] 2)))
           ValueError).
  vm_compute. reflexivity.
Defined.

Lemma calculate_statistics_appends_fresh
      (tbl : list LoadData.WeatherRecord) (db : StatsDb) :
  Script.ids_fresh db ->
  Script.ids_fresh (final_state (calculate_statistics tbl db))
  /\ exists new,
       rows (final_state (calculate_statistics tbl db)) = rows db ++ new
       /\ forall r, In r new -> next_id db <= id r.
Proof.
  intros Hfresh. unfold calculate_statistics.
  destruct (save_loop_saved (records tbl) [] db) as (us & ->).
  destruct (bulk_save_fresh db us Hfresh) as [Hfresh' Hnew].
  split; [exact Hfresh'|].
  exists (numbered (next_id db) us). split; [|exact Hnew].
  now rewrite bulk_save_numbered.
Qed.

(** X21: [calculate_statistics] only appends, and the rows it adds get
    identities the store has not used: if the [id]s were distinct and
    below [next_id] before, they are so afterwards, however the run
    ends. *)
Theorem calculate_statistics_keeps_ids_fresh
        (tbl : list LoadData.WeatherRecord) (db : StatsDb) :
  Script.ids_fresh db ->
  Script.ids_fresh (final_state (calculate_statistics tbl db))
  /\ exists new,
       rows (final_state (calculate_statistics tbl db)) = rows db ++ new
       /\ forall r, In r new -> next_id db <= id r.
Proof. apply calculate_statistics_appends_fresh. Qed.

Lemma calculate_statistics_keeps_ids_fresh_witness :
  Script.ids_fresh (mkStatsDb [Samples.stat_a_1] 2)
  /\ Script.ids_fresh
       (final_state (calculate_statistics Samples.year_2020
                       (mkStatsDb [Samples.stat_a_1] 2))).
Proof.
  assert (Hfresh : Script.ids_fresh (mkStatsDb [Samples.stat_a_1] 2)).
  { split; simpl.
    - repeat constructor. intros [].
    - intros r [<-|[]]. simpl. lia. }
  split; [exact Hfresh|].
  exact (proj1 (calculate_statistics_keeps_ids_fresh
                  Samples.year_2020 (mkStatsDb [Samples.stat_a_1] 2) Hfresh)).
Defined.


End AggregationMore.

(** * The two scripts *)

Section Scripts.

(** X23: when the [calculate_statistics.py] script finishes on a store
    whose [id]s are fresh, they are fresh afterwards, and every row the
    store held before, with no NULL aggregate, whose year, station and
    aggregates were computed again by this run is replaced: the old row
    is gone and a row with the same year, station and aggregates, added
    by this run, is in the table. *)
Theorem recomputed_statistics_supersede
        (tbl : list LoadData.WeatherRecord)
        (db db1 : CalculateStatistics.StatsDb) :
  Script.ids_fresh db ->
  CalculateStatistics.calculate_statistics tbl db = Finished db1 ->
  exists out,
    Script.calculate_statistics_main tbl db = Finished out
    /\ Script.ids_fresh out
    /\ forall r,
         In r (CalculateStatistics.rows db) ->
         CalculateStatistics.no_null (CalculateStatistics.key r) = true ->
         (exists r', In r' (CalculateStatistics.rows db1)
                     /\ ~ In r' (CalculateStatistics.rows db)
                     /\ CalculateStatistics.key r' = CalculateStatistics.key r) ->
         ~ In r (CalculateStatistics.rows out)
         /\ exists r2,
              In r2 (CalculateStatistics.rows out)
              /\ CalculateStatistics.key r2 = CalculateStatistics.key r
              /\ CalculateStatistics.next_id db <= CalculateStatistics.id r2.
Proof.
  intros Hfresh Hrun.
  destruct (calculate_statistics_appends_fresh tbl db Hfresh)
    as ([Hnd1 Hlt1] & new & Hrows & Hnew).
  rewrite Hrun in Hnd1, Hlt1, Hrows. simpl in Hnd1, Hlt1, Hrows.
  unfold Script.calculate_statistics_main. rewrite Hrun.
  eexists. split; [reflexivity|].
  destruct (run_accounts CalculateStatistics.Key_dec CalculateStatistics.key
              CalculateStatistics.id CalculateStatistics.on
              CalculateStatistics.no_null stats_on_iff
              (CalculateStatistics.rows db1)) as [Hfst _].
  change (fst (CalculateStatistics.remove_duplicates
                 (CalculateStatistics.rows db1))
          = filter (fun r => negb (Sql.hit CalculateStatistics.on
                      (CalculateStatistics.subquery
                         (CalculateStatistics.rows db1)) r))
                   (CalculateStatistics.rows db1)) in Hfst.
  split; [split|]; cbn [CalculateStatistics.rows CalculateStatistics.next_id].
  - rewrite Hfst. now apply distinct_ties_filter.
  - intros r Hr. rewrite Hfst in Hr. apply filter_In in Hr.
    now apply Hlt1.
  - intros r Hr Hnn (r' & Hr' & Hnew' & Hk).
    assert (Hfresh' : CalculateStatistics.next_id db
                      <= CalculateStatistics.id r').
    { rewrite Hrows in Hr'. apply in_app_or in Hr'.
      destruct Hr' as [Hold|Hadded]; [contradiction | now apply Hnew]. }
    split.
    + intros Hkept.
      apply (kept_iff_greatest CalculateStatistics.Key_dec
               CalculateStatistics.key CalculateStatistics.id
               CalculateStatistics.on CalculateStatistics.no_null stats_on_iff
               (CalculateStatistics.rows db1) r Hnn) in Hkept.
      destruct Hkept as [_ Hmax]. specialize (Hmax r' Hr' Hk).
      destruct Hfresh as [_ Hlt]. specialize (Hlt r Hr). lia.
    + destruct (group_survives CalculateStatistics.Key_dec
                  CalculateStatistics.key CalculateStatistics.id
                  CalculateStatistics.on CalculateStatistics.no_null
                  stats_on_iff (CalculateStatistics.rows db1) r' Hr')
        as (r2 & Hr2 & Hk2 & Hid2).
      exists r2. split; [exact Hr2|]. split; [congruence | lia].
Qed.

Lemma recomputed_statistics_supersede_witness :
  exists out,
    Script.calculate_statistics_main [Samples.full_old]
      (CalculateStatistics.mkStatsDb [Samples.stat_a_1] 2) = Finished out
    /\ Script.ids_fresh out
    /\ forall r,
         In r (CalculateStatistics.rows
                 (CalculateStatistics.mkStatsDb [Samples.stat_a_1] 2)) ->
         CalculateStatistics.no_null (CalculateStatistics.key r) = true ->
         (exists r',
             In r' (CalculateStatistics.rows
                      (CalculateStatistics.mkStatsDb
                         [Samples.stat_a_1; Samples.stat_a_2] 3))
             /\ ~ In r' (CalculateStatistics.rows
                           (CalculateStatistics.mkStatsDb [Samples.stat_a_1] 2))
             /\ CalculateStatistics.key r' = CalculateStatistics.key r) ->
         ~ In r (CalculateStatistics.rows out)
         /\ exists r2,
              In r2 (CalculateStatistics.rows out)
              /\ CalculateStatistics.key r2 = CalculateStatistics.key r
              /\ CalculateStatistics.next_id
                   (CalculateStatistics.mkStatsDb [Samples.stat_a_1] 2)
                 <= CalculateStatistics.id r2.
Proof.
  apply (recomputed_statistics_supersede [Samples.full_old]
           (CalculateStatistics.mkStatsDb [Samples.stat_a_1] 2)
           (CalculateStatistics.mkStatsDb
              [Samples.stat_a_1; Samples.stat_a_2] 3)).
  - split; simpl.
    + repeat constructor. intros [].
    + intros r [<-|[]]. simpl. lia.
  - vm_compute. reflexivity.
Defined.

(** The script run again over the same observation: the row of the first
    run is replaced by the row of the second. *)
Example calculate_statistics_main_rerun :
  Script.calculate_statistics_main [Samples.full_old]
    (CalculateStatistics.mkStatsDb [Samples.stat_a_1] 2)
  = Finished (CalculateStatistics.mkStatsDb [Samples.stat_a_2] 3).
Proof. vm_compute. reflexivity. Qed.

(** X24: when the [load_data.py] script finishes, a further
    [remove_duplicates] would find nothing to delete, and no observation
    the table held before the script is lost altogether: a record with
    the same business columns, ingested at the same time or later, is in
    the table. *)
Theorem load_data_main_keeps_a_copy
        (utcnow : nat -> Z) (wx_data : list (string * list string))
        (db out : list LoadData.WeatherRecord) :
  Script.load_data_main utcnow wx_data db = Finished out ->
  LoadData.remove_duplicates out = (out, 0%nat)
  /\ forall r, In r db ->
       exists r', In r' out
                  /\ LoadData.key r' = LoadData.key r
                  /\ LoadData.ingestion_timestamp r
                     <= LoadData.ingestion_timestamp r'.
Proof.
  unfold Script.load_data_main, LoadData.load_data_from_files.
  destruct (load_files_grows utcnow wx_data (LoadData.mkSession db [] 0)
              eq_refl) as (new & Hgrow).
  destruct (LoadData.load_files utcnow wx_data (LoadData.mkSession db [] 0))
    as [s|e s]; [|discriminate].
  intros H. inversion H; subst out. simpl in Hgrow. split.
  - apply raw_run_twice.
  - intros r Hr.
    apply (group_survives LoadData.Key_dec LoadData.key
             LoadData.ingestion_timestamp LoadData.on LoadData.no_null
             raw_on_iff (LoadData.table s) r).
    rewrite Hgrow. apply in_or_app. now left.
Qed.

Lemma load_data_main_keeps_a_copy_witness :
  LoadData.remove_duplicates [Samples.good_record]
  = ([Samples.good_record], 0%nat)
  /\ forall r, In r [LoadData.mkWeatherRecord "20200101" (Some 100)
                       (Some (-50)) (Some 0) "b" (-1)] ->
       exists r', In r' [Samples.good_record]
                  /\ LoadData.key r' = LoadData.key r
                  /\ LoadData.ingestion_timestamp r
                     <= LoadData.ingestion_timestamp r'.
Proof.
  apply (load_data_main_keeps_a_copy Samples.clock
           [("b.txt", [Samples.good_line])]
           [LoadData.mkWeatherRecord "20200101" (Some 100) (Some (-50))
              (Some 0) "b" (-1)]
           [Samples.good_record]).
  vm_compute. reflexivity.
Defined.

End Scripts.
